(** * Weather polygon dashboard: timeline slider and map view

    A shallow embedding of [src/components/TimelineSlider.tsx] and
    [src/components/MapView.tsx], and the properties of the timeline state
    machine, the classification palette, the per-vertex sampling loop and the
    derived polygon state.

    Conventions of the embedding.
    - Slot indices and handle positions are integer-valued JS numbers; they
      are modelled as [Z].
    - Temperatures and coordinates are JS numbers; they are modelled as
      IEEE 754 binary64 values ([PrimFloat.float]), with JS's [+], [/], [<],
      [<=], [===] read as the corresponding primitive operations.
    - Pixel coordinates of the pointer are modelled as exact rationals ([Q]);
      the slider is assumed to be laid out: the properties that depend on
      the pointer are stated for a track of positive width ([laidOut]).
    - In [TimelineSlider] a [Date] is a number of milliseconds of local
      time, for a time zone whose offset does not change over the 30-day
      window. In [ZonedDate] a [Date] is an instant and the time zone is a
      parameter: the dates of the slots and the notified window are
      computed there as the methods of [Date] compute them, also where the
      offset changes.
    - React state updates are read at the granularity of one handler call:
      a handler reads the state of the last render and its updates are
      applied together before the next event is handled.
    - An async function runs without interruption from one [await] to the
      next; the answers of the weather provider are events, in any order.
    - The map exists whenever a listener of the map view runs
      ([mapRef.current] is set before the listeners are registered). *)

From Stdlib Require Import ZArith QArith Qround Qminmax Floats Lia Lqa Bool.
From stdpp Require Import base option list gmap strings pretty.

(** ** The timeline slider ([TimelineSlider.tsx]) *)

Module TimelineSlider.

Local Open Scope Z_scope.

(** [Date]: milliseconds of local time. *)
Definition Date := Z.

Definition msPerHour : Z := 3600000.
Definition msPerDay : Z := 24 * msPerHour.

(** [d.getHours()] *)
Definition getHours (d : Date) : Z := (d / msPerHour) mod 24.

(** [d.setHours(0, 0, 0, 0)] *)
Definition setHours0 (d : Date) : Date := (d / msPerDay) * msPerDay.

(** [d.setDate(d.getDate() + n)] *)
Definition addDays (d : Date) (n : Z) : Date := d + n * msPerDay.

(** [d.setHours(h)] on a date [d] at local midnight, and
    [d.setHours(d.getHours() + h)] in general. *)
Definition addHours (d : Date) (h : Z) : Date := d + h * msPerHour.

(** [interface TimelineDataPoint]; the display [label] is not modelled. *)
Record TimelineDataPoint := { index : Z; date : Date }.

(** [type Mode = 'single' | 'range'] *)
Inductive Mode := ModeSingle | ModeRange.

(** [DragState['type']]: ['single' | 'start' | 'end'] *)
Inductive HandleType := HandleSingle | HandleStart | HandleEnd.

(** [interface DragState] *)
Record DragState := { type : HandleType; startX : Q }.

(** The bounding rectangle of the slider element. *)
Record DOMRect := { left : Q; width : Q }.

(** What a handler reads of a mouse event: [e.clientX], and
    [sliderRef.current.getBoundingClientRect()] at the time of the event
    ([None] when [sliderRef.current] is null). *)
Record MouseEvent := { clientX : Q; sliderRect : option DOMRect }.

#[global] Instance Mode_eq_dec : EqDecision Mode.
Proof. solve_decision. Defined.

#[global] Instance HandleType_eq_dec : EqDecision HandleType.
Proof. solve_decision. Defined.

(** [Math.round]: the nearest integer, halves rounded up. *)
Definition Math_round (x : Q) : Z := Qfloor (x + (1 # 2))%Q.

(** [generateTimelineData], from the clock reading [now]: 30 days of 24
    hourly slots, starting at local midnight 15 days before [now]. *)
Definition generateTimelineData (now : Date) : list TimelineDataPoint :=
  let startDate := setHours0 (addDays now (-15)) in
  flat_map (fun day : nat =>
    List.map (fun hour : nat =>
      {| index := Z.of_nat day * 24 + Z.of_nat hour;
         date := addHours (addDays startDate (Z.of_nat day)) (Z.of_nat hour) |})
      (seq 0 24))
    (seq 0 30).

Definition todayIndex : Z := 15 * 24.

(** The component: its memoised [timelineData] and its state hooks. *)
Record State := {
  singleHandle : Z;
  rangeStart : Z;
  rangeEnd : Z;
  mode : Mode;
  dragState : option DragState
}.

Section Component.

(** [now]: the clock reading inside [generateTimelineData] at mount. *)
Variable now : Date.

Definition timelineData : list TimelineDataPoint := generateTimelineData now.
Definition totalHours : Z := Z.of_nat (length timelineData).

(** [timelineData[i]]: [None] stands for JS's [undefined]. *)
Definition slot (i : Z) : option TimelineDataPoint :=
  if i <? 0 then None else timelineData !! Z.to_nat i.

(** The initial values of the state hooks; [clock] is the reading of
    [new Date()] in the initialiser of [singleHandle]. *)
Definition initialState (clock : Date) : State :=
  {| singleHandle := todayIndex + getHours clock;
     rangeStart := todayIndex;
     rangeEnd := todayIndex + 24;
     mode := ModeSingle;
     dragState := None |}.

Definition percentToValue (percent : Q) : Z :=
  Math_round ((percent / 100) * inject_Z (totalHours - 1))%Q.

(** [getMousePosition], for a rectangle of positive width. (For a width
    of 0 the quotient is infinite or not a number in JS; here it is 0.) *)
Definition getMousePosition (e : MouseEvent) : Z :=
  match sliderRect e with
  | None => 0
  | Some rect =>
      let percent :=
        Qmax 0 (Qmin 100 (((clientX e - left rect) / width rect) * 100))%Q in
      percentToValue percent
  end.

Definition setSingleHandle (v : Z) (s : State) : State :=
  {| singleHandle := v; rangeStart := rangeStart s; rangeEnd := rangeEnd s;
     mode := mode s; dragState := dragState s |}.

Definition setRangeStart (v : Z) (s : State) : State :=
  {| singleHandle := singleHandle s; rangeStart := v; rangeEnd := rangeEnd s;
     mode := mode s; dragState := dragState s |}.

Definition setRangeEnd (v : Z) (s : State) : State :=
  {| singleHandle := singleHandle s; rangeStart := rangeStart s; rangeEnd := v;
     mode := mode s; dragState := dragState s |}.

Definition setMode (m : Mode) (s : State) : State :=
  {| singleHandle := singleHandle s; rangeStart := rangeStart s;
     rangeEnd := rangeEnd s; mode := m; dragState := dragState s |}.

Definition setDragState (d : option DragState) (s : State) : State :=
  {| singleHandle := singleHandle s; rangeStart := rangeStart s;
     rangeEnd := rangeEnd s; mode := mode s; dragState := d |}.

Definition handleMouseDown (x : Q) (handleType : HandleType) (s : State) : State :=
  setDragState (Some {| type := handleType; startX := x |}) s.

Definition handleMouseMove (e : MouseEvent) (s : State) : State :=
  match dragState s with
  | None => s
  | Some d =>
      let newValue := getMousePosition e in
      match mode s with
      | ModeSingle =>
          setSingleHandle (Z.max 0 (Z.min (totalHours - 1) newValue)) s
      | ModeRange =>
          match type d with
          | HandleStart =>
              setRangeStart (Z.max 0 (Z.min (rangeEnd s - 1) newValue)) s
          | HandleEnd =>
              setRangeEnd (Z.max (rangeStart s + 1) (Z.min (totalHours - 1) newValue)) s
          | HandleSingle => s
          end
      end
  end.

Definition handleMouseUp (s : State) : State := setDragState None s.

Definition handleSliderClick (e : MouseEvent) (s : State) : State :=
  match dragState s with
  | Some _ => s
  | None =>
      let newValue := getMousePosition e in
      match mode s with
      | ModeSingle => setSingleHandle newValue s
      | ModeRange =>
          let distToStart := Z.abs (newValue - rangeStart s) in
          let distToEnd := Z.abs (newValue - rangeEnd s) in
          if distToStart <? distToEnd
          then setRangeStart (Z.max 0 (Z.min (rangeEnd s - 1) newValue)) s
          else setRangeEnd (Z.max (rangeStart s + 1) (Z.min (totalHours - 1) newValue)) s
      end
  end.

(** [goToNow]; [clock] is the reading of [new Date()] in the handler. *)
Definition goToNow (clock : Date) (s : State) : State :=
  let now' := todayIndex + getHours clock in
  match mode s with
  | ModeSingle => setSingleHandle now' s
  | ModeRange => setRangeEnd (now' + 24) (setRangeStart now' s)
  end.

Definition goToToday (s : State) : State :=
  match mode s with
  | ModeSingle => setSingleHandle todayIndex s
  | ModeRange => setRangeEnd (todayIndex + 24) (setRangeStart todayIndex s)
  end.

(** The inputs of the component. *)
Inductive Event :=
  | MouseDown (handleType : HandleType) (x : Q)
  | MouseMove (e : MouseEvent)
  | MouseUp
  | SliderClick (e : MouseEvent)
  | ClickSingleHandle
  | ClickRangeSelection
  | ClickGoToNow (clock : Date)
  | ClickToday.

Definition step (s : State) (ev : Event) : State :=
  match ev with
  | MouseDown h x => handleMouseDown x h s
  | MouseMove e => handleMouseMove e s
  | MouseUp => handleMouseUp s
  | SliderClick e => handleSliderClick e s
  | ClickSingleHandle => setMode ModeSingle s
  | ClickRangeSelection => setMode ModeRange s
  | ClickGoToNow clock => goToNow clock s
  | ClickToday => goToToday s
  end.

Definition run (s : State) (evs : list Event) : State := fold_left step evs s.

(** The arguments of one call of [onTimeChange]. *)
Record TimeChange := { startTime : Date; endTime : Date; changeMode : Mode }.

(** The body of the effect "Notify parent of time changes": [None] when
    reading [.date] of an undefined slot throws. *)
Definition notifyParent (s : State) : option TimeChange :=
  match mode s with
  | ModeSingle =>
      p ← slot (singleHandle s);
      Some {| startTime := date p; endTime := addHours (date p) 1;
              changeMode := ModeSingle |}
  | ModeRange =>
      p ← slot (rangeStart s);
      q ← slot (rangeEnd s);
      Some {| startTime := date p; endTime := date q; changeMode := ModeRange |}
  end.

(** The dependencies of that effect that can change between renders
    ([onTimeChange] and [timelineData] are stable). *)
Definition deps (s : State) : Z * Z * Z * Mode :=
  (singleHandle s, rangeStart s, rangeEnd s, mode s).

(** The calls of [onTimeChange] caused by the render that follows an update
    from [s] to [s']: the effect runs when a dependency changed. *)
Definition effects (s s' : State) : list (option TimeChange) :=
  if decide (deps s = deps s') then [] else [notifyParent s'].

End Component.

End TimelineSlider.

(** ** The dates of the slider in a time zone

    [TimelineSlider] reads a [Date] as a local time. Here a [Date] is its
    time value, the milliseconds since the epoch in UTC, and the time zone
    is explicit, so that the dates of the slots and the window notified to
    the parent are those of the code in a zone whose offset changes
    (daylight saving). The handlers of [TimelineSlider] read of the slots
    only their number, which is the same here. *)

Module ZonedDate.

Import TimelineSlider.
Local Open Scope Z_scope.

(** The time zone as the methods of [Date] see it: the offset of local
    time from UTC in effect at an instant, and the offset by which a local
    time is read. A local time that the clocks skip or show twice is read
    by the offset in effect before the change. *)
Record TimeZone := {
  offsetAt : Z -> Z;
  offsetOfLocal : Z -> Z
}.

(** A zone whose offset is always [c]. *)
Definition fixedOffset (c : Z) : TimeZone :=
  {| offsetAt := fun _ => c; offsetOfLocal := fun _ => c |}.

(** A zone whose offset changes once, at the instant [change], from
    [before] to [after]. *)
Definition oneChange (change before after : Z) : TimeZone :=
  {| offsetAt := fun t => if t <? change then before else after;
     offsetOfLocal := fun t =>
       if t <? change + Z.max before after then before else after |}.

Section Zone.

Variable zone : TimeZone.

(** The local time of an instant, and the instant of a local time. *)
Definition LocalTime (t : Z) : Z := t + offsetAt zone t.
Definition UTC (t : Z) : Z := t - offsetOfLocal zone t.

(** The hour of a local time. *)
Definition HourFromTime (t : Z) : Z := (t / msPerHour) mod 24.

(** [d.getHours()] *)
Definition getHours (d : Date) : Z := HourFromTime (LocalTime d).

(** [d.setHours(hour)]: the hour of the local time is replaced; its day,
    minutes, seconds and milliseconds are kept. *)
Definition setHours (d : Date) (hour : Z) : Date :=
  let t := LocalTime d in
  UTC (t / msPerDay * msPerDay + hour * msPerHour + t mod msPerHour).

(** [d.setHours(0, 0, 0, 0)] *)
Definition setHours0 (d : Date) : Date :=
  UTC (LocalTime d / msPerDay * msPerDay).

(** [d.setDate(d.getDate() + n)]: the day of the local time is moved by
    [n] days; the time within the day is kept. *)
Definition addDays (d : Date) (n : Z) : Date :=
  UTC (LocalTime d + n * msPerDay).

(** [generateTimelineData], from the clock reading [now]. *)
Definition generateTimelineData (now : Date) : list TimelineDataPoint :=
  let startDate := setHours0 (addDays now (-15)) in
  flat_map (fun day : nat =>
    List.map (fun hour : nat =>
      {| index := Z.of_nat day * 24 + Z.of_nat hour;
         date := setHours (addDays startDate (Z.of_nat day)) (Z.of_nat hour) |})
      (seq 0 24))
    (seq 0 30).

(** [now]: the clock reading inside [generateTimelineData] at mount. *)
Variable now : Date.

Definition timelineData : list TimelineDataPoint := generateTimelineData now.

(** [timelineData[i]]: [None] stands for JS's [undefined]. *)
Definition slot (i : Z) : option TimelineDataPoint :=
  if i <? 0 then None else timelineData !! Z.to_nat i.

(** The body of the effect "Notify parent of time changes": [None] when
    reading [.date] of an undefined slot throws. *)
Definition notifyParent (s : State) : option TimeChange :=
  match mode s with
  | ModeSingle =>
      p ← slot (singleHandle s);
      let startTime := date p in
      let endTime := startTime in
      let endTime := setHours endTime (getHours endTime + 1) in
      Some {| startTime := startTime; endTime := endTime; changeMode := ModeSingle |}
  | ModeRange =>
      p ← slot (rangeStart s);
      q ← slot (rangeEnd s);
      Some {| startTime := date p; endTime := date q; changeMode := ModeRange |}
  end.

(** The calls of [onTimeChange] caused by the render that follows an update
    from [s] to [s']: the effect runs when a dependency changed. *)
Definition effects (s s' : State) : list (option TimeChange) :=
  if decide (deps s = deps s') then [] else [notifyParent s'].

End Zone.

End ZonedDate.

(** ** The map view ([MapView.tsx]) *)

Module MapView.

(** A JS number that is not known to be an integer. *)
Definition number := float.

(** The number of a length, or of a length minus one. *)
Definition number_of_Z (z : Z) : number :=
  if (z <? 0)%Z then (- PrimFloat.of_uint63 (Uint63.of_Z (- z)))%float
  else PrimFloat.of_uint63 (Uint63.of_Z z).

(** A position, [[lng, lat]]. *)
Definition Coord : Type := number * number.

(** [coords.slice(0, -1)] *)
Definition slice_0_m1 {A} (l : list A) : list A := take (length l - 1) l.

(** *** Types of [types.ts] *)

(** [ThresholdRule['operator']]: ['=' | '<' | '>' | '<=' | '>='] *)
Inductive Operator := OpEq | OpLt | OpGt | OpLe | OpGe.

Record ThresholdRule := { operator : Operator; value : number; color : string }.

Record PolygonConfig := {
  label : option string;
  threshold : option number;
  tag : option (list string);
  averageTemperature : option number;
  dataSource : option string;
  field : option string
}.

(** *** The weather provider *)

(** [data?.hourly?.temperature_2m]: an array of numbers and nulls, or
    anything else. *)
Inductive Temperature2m :=
  | NotAnArray
  | TemperatureArray (temps : list (option number)).

(** How the two awaits of [getTemperatureForCoordinate] end: [fetch]
    rejects, [res.json()] rejects, or the body parses to [data]. *)
Inductive FetchOutcome :=
  | FetchRejects
  | JsonRejects
  | Json (temperature_2m : Temperature2m).

(** [getTemperatureForCoordinate], from the request on: the value the
    promise resolves to ([None] is [null]). The promise never rejects. *)
Definition getTemperatureForCoordinate (outcome : FetchOutcome) : option number :=
  match outcome with
  | Json (TemperatureArray (t :: _)) => t
  | _ => None
  end.

(** *** Classification *)

(** [weatherData.reduce((a, b) => a + b, 0) / weatherData.length] *)
Definition average (weatherData : list number) : number :=
  (fold_left PrimFloat.add weatherData 0 / number_of_Z (Z.of_nat (length weatherData)))%float.

(** The loop of [getPolygonColor] over the rules, with its fallback. *)
Fixpoint getPolygonColor_loop (avg : number) (thresholds : list ThresholdRule) : string :=
  match thresholds with
  | [] => "#cccccc"
  | rule :: rest =>
      match operator rule with
      | OpGt => if (value rule <? avg)%float then color rule
                else getPolygonColor_loop avg rest
      | OpLt => if (avg <? value rule)%float then color rule
                else getPolygonColor_loop avg rest
      | OpGe => if (value rule <=? avg)%float then color rule
                else getPolygonColor_loop avg rest
      | OpLe => if (avg <=? value rule)%float then color rule
                else getPolygonColor_loop avg rest
      | OpEq => if (avg =? value rule)%float then color rule
                else getPolygonColor_loop avg rest
      end
  end.

(** [getPolygonColor]; [None] is an [undefined] [weatherData]. *)
Definition getPolygonColor (weatherData : option (list number))
    (thresholds : list ThresholdRule) : string :=
  match weatherData with
  | None | Some [] => "#cccccc"
  | Some w => getPolygonColor_loop (average w) thresholds
  end.

Definition getTemperatureColor (avgTemp : number) : string :=
  if (avgTemp <? 10)%float then "#ff0000"
  else if (10 <=? avgTemp)%float && (avgTemp <? 25)%float then "#0000ff"
  else "#00ff00".

(** *** Centroid *)

Definition calculateCentroid (coords : list Coord) : Coord :=
  let '(x, y) :=
    fold_left (fun '(x, y) '(lng, lat) => (x + lng, y + lat)%float)
              (slice_0_m1 coords) (0, 0)%float in
  let count := number_of_Z (Z.of_nat (length coords) - 1) in
  (x / count, y / count)%float.

(** *** The map, the markers and the component state *)

Inductive LayerType := Fill | Line.

(** A layer of the map: its type, its source and its [fill-color] or
    [line-color] (opacities and widths are constants of the code). *)
Record Layer := { layerType : LayerType; source : string; paintColor : string }.

(** The sources (the ring of each GeoJSON polygon) and layers of the map. *)
Record MapState := {
  sources : gmap string (list Coord);
  layers : gmap string Layer
}.

(** A marker: where it is, the colour of its text, and the average it
    shows (formatted by [toFixed(2)] in the code). *)
Record Marker := { lngLat : Coord; popupColor : string; popupTemp : number }.

(** An entry of [polygonData]. *)
Record PolygonDatum := { avgTemp : number; centroid : Coord }.

(** A call of [handlePolygonDraw] suspended at the [await] of its loop:
    its arguments, the vertices the loop has not reached yet, and the
    temperatures pushed so far. *)
Record Pass := {
  polygonId : string;
  coordinates : list Coord;
  remaining : list Coord;
  temperatures : list number
}.

Record State := {
  polygonAvgTemp : option number;
  polygonCentroid : option Coord;
  polygonData : gmap string PolygonDatum;
  polygonTempMarkersRef : gmap string Marker;
  mapRef : MapState;
  (** the suspended calls of [handlePolygonDraw], by order of call *)
  pending : gmap nat Pass;
  nextPass : nat;
  (** the requests sent to the weather provider: (latitude, longitude) *)
  fetched : list (number * number)
}.

Definition initialState : State :=
  {| polygonAvgTemp := None; polygonCentroid := None; polygonData := ∅;
     polygonTempMarkersRef := ∅; mapRef := {| sources := ∅; layers := ∅ |};
     pending := ∅; nextPass := 0; fetched := [] |}.

Definition setPolygonAvgTemp (v : option number) (s : State) : State :=
  {| polygonAvgTemp := v; polygonCentroid := polygonCentroid s;
     polygonData := polygonData s; polygonTempMarkersRef := polygonTempMarkersRef s;
     mapRef := mapRef s; pending := pending s; nextPass := nextPass s;
     fetched := fetched s |}.

Definition setPolygonCentroid (v : option Coord) (s : State) : State :=
  {| polygonAvgTemp := polygonAvgTemp s; polygonCentroid := v;
     polygonData := polygonData s; polygonTempMarkersRef := polygonTempMarkersRef s;
     mapRef := mapRef s; pending := pending s; nextPass := nextPass s;
     fetched := fetched s |}.

Definition setPolygonData (f : gmap string PolygonDatum -> gmap string PolygonDatum)
    (s : State) : State :=
  {| polygonAvgTemp := polygonAvgTemp s; polygonCentroid := polygonCentroid s;
     polygonData := f (polygonData s); polygonTempMarkersRef := polygonTempMarkersRef s;
     mapRef := mapRef s; pending := pending s; nextPass := nextPass s;
     fetched := fetched s |}.

Definition setMarkers (f : gmap string Marker -> gmap string Marker)
    (s : State) : State :=
  {| polygonAvgTemp := polygonAvgTemp s; polygonCentroid := polygonCentroid s;
     polygonData := polygonData s; polygonTempMarkersRef := f (polygonTempMarkersRef s);
     mapRef := mapRef s; pending := pending s; nextPass := nextPass s;
     fetched := fetched s |}.

Definition setMap (f : MapState -> MapState) (s : State) : State :=
  {| polygonAvgTemp := polygonAvgTemp s; polygonCentroid := polygonCentroid s;
     polygonData := polygonData s; polygonTempMarkersRef := polygonTempMarkersRef s;
     mapRef := f (mapRef s); pending := pending s; nextPass := nextPass s;
     fetched := fetched s |}.

Definition setPending (f : gmap nat Pass -> gmap nat Pass) (s : State) : State :=
  {| polygonAvgTemp := polygonAvgTemp s; polygonCentroid := polygonCentroid s;
     polygonData := polygonData s; polygonTempMarkersRef := polygonTempMarkersRef s;
     mapRef := mapRef s; pending := f (pending s); nextPass := nextPass s;
     fetched := fetched s |}.

Definition setNextPass (n : nat) (s : State) : State :=
  {| polygonAvgTemp := polygonAvgTemp s; polygonCentroid := polygonCentroid s;
     polygonData := polygonData s; polygonTempMarkersRef := polygonTempMarkersRef s;
     mapRef := mapRef s; pending := pending s; nextPass := n;
     fetched := fetched s |}.

(** [fetch(url)], the url made of the latitude and the longitude: the
    request is recorded. *)
Definition fetch (lat lon : number) (s : State) : State :=
  {| polygonAvgTemp := polygonAvgTemp s; polygonCentroid := polygonCentroid s;
     polygonData := polygonData s; polygonTempMarkersRef := polygonTempMarkersRef s;
     mapRef := mapRef s; pending := pending s; nextPass := nextPass s;
     fetched := fetched s ++ [(lat, lon)] |}.

(** The ids of the layers and of the source of a polygon. *)
Definition fillLayerId (id : string) : string := "layer-" +:+ id.
Definition outlineLayerId (id : string) : string := "layer-" +:+ id +:+ "-outline".
Definition sourceId (id : string) : string := "source-" +:+ id.

(** [renderPolygonToMap]: the layers and the source of [id] are removed if
    they exist, then added again. *)
Definition renderPolygonToMap (id : string) (coordinates : list Coord)
    (color : string) (m : MapState) : MapState :=
  let layers1 := delete (outlineLayerId id) (delete (fillLayerId id) (layers m)) in
  let sources1 := delete (sourceId id) (sources m) in
  let sources2 := <[sourceId id := coordinates]> sources1 in
  let layers2 :=
    <[fillLayerId id :=
        {| layerType := Fill; source := sourceId id; paintColor := color |}]> layers1 in
  let layers3 :=
    <[outlineLayerId id :=
        {| layerType := Line; source := sourceId id; paintColor := "#000000" |}]> layers2 in
  {| sources := sources2; layers := layers3 |}.

(** [handlePolygonDraw] after its loop. *)
Definition afterLoop (p : Pass) (s : State) : State :=
  match temperatures p with
  | [] => setPolygonCentroid None (setPolygonAvgTemp None s)
  | _ :: _ =>
      let avgTemp := average (temperatures p) in
      let s := setPolygonAvgTemp (Some avgTemp) s in
      let centroid := calculateCentroid (coordinates p) in
      let s := setPolygonCentroid (Some centroid) s in
      let polygonColor := getTemperatureColor avgTemp in
      let s := setMap (renderPolygonToMap (polygonId p) (coordinates p) polygonColor) s in
      let s := setMarkers (delete (polygonId p)) s in
      let marker :=
        {| lngLat := centroid; popupColor := polygonColor; popupTemp := avgTemp |} in
      let s := setMarkers <[polygonId p := marker]> s in
      setPolygonData
        <[polygonId p := {| avgTemp := avgTemp; centroid := centroid |}]> s
  end.

(** The head of the loop of call [k]: the next vertex is fetched and the
    call is suspended, or the loop is over and the call runs to its end. *)
Definition loopHead (k : nat) (p : Pass) (s : State) : State :=
  match remaining p with
  | (lng, lat) :: rest =>
      let p' := {| polygonId := polygonId p; coordinates := coordinates p;
                   remaining := rest; temperatures := temperatures p |} in
      setPending <[k := p']> (fetch lat lng s)
  | [] => afterLoop p (setPending (delete k) s)
  end.

(** A call of [handlePolygonDraw], up to its first [await]. *)
Definition handlePolygonDraw (coordinates : list Coord) (polygonId : string)
    (s : State) : State :=
  let uniqueCoords := slice_0_m1 coordinates in
  let k := nextPass s in
  loopHead k {| polygonId := polygonId; coordinates := coordinates;
                remaining := uniqueCoords; temperatures := [] |}
           (setNextPass (S k) s).

(** [if (temp !== null) temperatures.push(temp)] *)
Definition push (temperatures : list number) (temp : option number) : list number :=
  match temp with
  | Some temp => temperatures ++ [temp]
  | None => temperatures
  end.

(** The awaited promise of call [k] resolves: the temperature is pushed
    unless it is null, and the loop goes on. *)
Definition resume (k : nat) (outcome : FetchOutcome) (s : State) : State :=
  match pending s !! k with
  | None => s
  | Some p =>
      let temperatures' := push (temperatures p) (getTemperatureForCoordinate outcome) in
      loopHead k {| polygonId := polygonId p; coordinates := coordinates p;
                    remaining := remaining p; temperatures := temperatures' |} s
  end.

(** *** Draw events *)

Inductive Geometry :=
  | Polygon (rings : list (list Coord))
  | OtherGeometry.

(** A feature of a draw event; [id] is [feature.id?.toString()]. *)
Record Feature := { id : option string; geometry : Geometry }.

(** [if (id)]: the id is defined and not the empty string. *)
Definition truthy (id : option string) : option string :=
  match id with
  | Some "" | None => None
  | Some i => Some i
  end.

(** The listener of ["draw.create"]: it reads the first feature only. A
    missing feature or ring throws inside an async function, which changes
    nothing. *)
Definition onDrawCreate (features : list Feature) (s : State) : State :=
  match features with
  | [] => s
  | polygon :: _ =>
      match geometry polygon with
      | OtherGeometry => s
      | Polygon rings =>
          match rings, truthy (id polygon) with
          | coordinates :: _, Some id => handlePolygonDraw coordinates id s
          | _, _ => s
          end
      end
  end.

(** The listener of ["draw.update"]. *)
Definition onDrawUpdate (features : list Feature) (s : State) : State :=
  fold_left (fun s feature =>
    match geometry feature with
    | Polygon rings =>
        match rings, truthy (id feature) with
        | coordinates :: _, Some id => handlePolygonDraw coordinates id s
        | _, _ => s
        end
    | OtherGeometry => s
    end) features s.

(** The listener of ["draw.delete"]. *)
Definition onDrawDelete (features : list Feature) (s : State) : State :=
  fold_left (fun s feature =>
    match truthy (id feature) with
    | Some id =>
        let s := setMarkers (delete id) s in
        let s := setMap (fun m =>
          {| sources := delete (sourceId id) (sources m);
             layers := delete (outlineLayerId id) (delete (fillLayerId id) (layers m)) |}) s in
        setPolygonData (delete id) s
    | None => s
    end) features s.

(** The events of the map view: the three draw events, and the settling
    of the promise that call [k] of [handlePolygonDraw] awaits. *)
Inductive Event :=
  | DrawCreate (features : list Feature)
  | DrawUpdate (features : list Feature)
  | DrawDelete (features : list Feature)
  | FetchSettled (k : nat) (outcome : FetchOutcome).

(** [MapViewProps]; [onConfigChange] is never called. *)
Record MapViewProps := { configByPolygon : gmap string PolygonConfig }.

(** One turn of the event loop. No handler reads the props. *)
Definition step (props : MapViewProps) (s : State) (ev : Event) : State :=
  match ev with
  | DrawCreate features => onDrawCreate features s
  | DrawUpdate features => onDrawUpdate features s
  | DrawDelete features => onDrawDelete features s
  | FetchSettled k outcome => resume k outcome s
  end.

Definition run (props : MapViewProps) (s : State) (evs : list Event) : State :=
  fold_left (step props) evs s.

(** *** The threshold rules of the sidebar ([Sidebar.tsx]) *)

(** [interface ThresholdRule] of the sidebar: a rule with an id and an
    optional label. *)
Record SidebarRule := {
  ruleId : string;
  rule : ThresholdRule;
  ruleLabel : option string
}.

(** [interface DataSource] *)
Record DataSource := {
  dataSourceId : string;
  name : string;
  provider : string;
  fields : list string;
  selectedField : string;
  thresholds : list SidebarRule;
  isActive : bool;
  dataSourcePolygonId : option string
}.

(** The dashboard: the data sources are state of the sidebar, which has no
    props; the map view gets [configByPolygon]. *)
Record Dashboard := {
  dataSources : list DataSource;
  mapViewProps : MapViewProps;
  mapView : State
}.

Definition dashboardStep (d : Dashboard) (ev : Event) : Dashboard :=
  {| dataSources := dataSources d; mapViewProps := mapViewProps d;
     mapView := step (mapViewProps d) (mapView d) ev |}.

Definition dashboardRun (d : Dashboard) (evs : list Event) : Dashboard :=
  fold_left dashboardStep evs d.

End MapView.

(** ** Notions used to state the properties of the timeline slider *)

Module TimelineSpec.

Import TimelineSlider.
Local Open Scope Z_scope.

(** The time of slot [i]: [i] hours after local midnight 15 days before
    the mount. *)
Definition slotTime (now : Date) (i : Z) : Date :=
  setHours0 (addDays now (-15)) + i * msPerHour.

(** The invariant of the handles: all in range, the start before the end. *)
Definition handles_ok (s : State) : Prop :=
  (0 <= singleHandle s <= 719) /\ (0 <= rangeStart s < rangeEnd s) /\ rangeEnd s <= 719.

#[global] Instance handles_ok_dec (s : State) : Decision (handles_ok s).
Proof. unfold handles_ok. apply _. Defined.

(** A click in the middle of the initial range, 12 slots from each handle. *)
Definition click372 : MouseEvent :=
  {| clientX := 372; sliderRect := Some {| left := 0; width := 719 |} |}.



(** The positions of the three handles. *)
Definition handles (s : State) : Z * Z * Z :=
  (singleHandle s, rangeStart s, rangeEnd s).

(** The button of a mode. *)
Definition modeButton (m : Mode) : Event :=
  match m with ModeSingle => ClickSingleHandle | ModeRange => ClickRangeSelection end.

(** The track of the slider has a positive width when the pointer is read:
    an event that reads the pointer finds no slider element or one whose
    rectangle has a positive width. (For a rectangle of width 0 the
    division of [getMousePosition] is a division by zero.) *)
Definition laidOut (ev : Event) : Prop :=
  match ev with
  | MouseMove e | SliderClick e =>
      match sliderRect e with
      | Some rect => (0 < width rect)%Q
      | None => True
      end
  | _ => True
  end.

(** The pointer over slot 361 of a track of 719 pixels. *)
Definition click361 : MouseEvent :=
  {| clientX := 361; sliderRect := Some {| left := 0; width := 719 |} |}.

(** New York around 1 November 2026: at 06:00 UTC the clocks go back from
    02:00 (UTC-4) to 01:00 (UTC-5). *)
Definition newYorkAutumn2026 : ZonedDate.TimeZone :=
  ZonedDate.oneChange 1793512800000 (-4 * msPerHour) (-5 * msPerHour).

(** 1 November 2026, 17:00 UTC: noon in New York. *)
Definition noon1November2026 : Date := 1793552400000.

(** New York around 8 March 2026: at 07:00 UTC the clocks go forward from
    02:00 (UTC-5) to 03:00 (UTC-4). *)
Definition newYorkSpring2026 : ZonedDate.TimeZone :=
  ZonedDate.oneChange 1772953200000 (-5 * msPerHour) (-4 * msPerHour).

(** 10 March 2026, 16:00 UTC: noon in New York. *)
Definition noon10March2026 : Date := 1773158400000.

(** In a zone of offset [c], the time of slot [i] as an instant. *)
Definition slotInstant (c : Z) (now : Date) (i : Z) : Date :=
  slotTime (now + c) i - c.

(** In a zone of offset [c], the instants of a window of local times. *)
Definition instants (c : Z) (call : TimeChange) : TimeChange :=
  {| startTime := startTime call - c; endTime := endTime call - c;
     changeMode := changeMode call |}.

End TimelineSpec.

(** ** Notions used to state the properties of the map view *)

Module MapViewSpec.

Import MapView.

(** The neutral colour. *)
Definition neutral : string := "#cccccc".

(** The relational predicate of a rule, against an aggregate. *)
Definition holds (a : number) (rule : ThresholdRule) : bool :=
  match operator rule with
  | OpEq => (a =? value rule)%float
  | OpLt => (a <? value rule)%float
  | OpGt => (value rule <? a)%float
  | OpLe => (a <=? value rule)%float
  | OpGe => (value rule <=? a)%float
  end.

(** The sum of a sequence of numbers: each is added in turn, from the
    first one on, to a total that starts at [sofar]. *)
Fixpoint total (sofar : number) (values : list number) : number :=
  match values with
  | [] => sofar
  | v :: values => total (sofar + v)%float values
  end.

(** The arithmetic mean of the present values: their sum divided by their
    number; absent when there is none. *)
Definition mean (present : list number) : option number :=
  match present with
  | [] => None
  | _ :: _ =>
      Some (total 0%float present / number_of_Z (Z.of_nat (length present)))%float
  end.

(** The present values of a sequence of samples. *)
Definition present (samples : list (option number)) : list number :=
  omap (M:=list) (fun sample => sample) samples.

(** The aggregate of a sequence of samples, in the words of the
    specification: the mean of the present values, absent when the sequence
    is empty or all absent. *)
Definition aggregate (samples : list (option number)) : option number :=
  mean (present samples).

(** Classification in the words of the specification: the neutral colour
    for an absent aggregate, else the colour of the first rule that holds,
    else the neutral colour. *)
Definition classify (a : option number) (rules : list ThresholdRule) : string :=
  match a with
  | None => neutral
  | Some a =>
      match List.find (holds a) rules with
      | Some rule => color rule
      | None => neutral
      end
  end.

(** The palette of three rules below 10, below 25, and from 25 on. The
    second rule is reached only by an aggregate that is not below 10. *)
Definition palette (A B C : string) : list ThresholdRule :=
  [ {| operator := OpLt; value := 10%float; color := A |};
    {| operator := OpLt; value := 25%float; color := B |};
    {| operator := OpGe; value := 25%float; color := C |} ].

(** Three positions, without a closing duplicate. *)
Definition triangle : list Coord := [(0, 0); (3, 0); (0, 3)]%float.

(** What the component holds about polygon [id]: its entry of
    [polygonData], its marker, its source and its fill layer. *)
Definition derivedState (s : State) (id : string) :
    option PolygonDatum * option Marker * option (list Coord) * option Layer :=
  (polygonData s !! id, polygonTempMarkersRef s !! id,
   sources (mapRef s) !! sourceId id, layers (mapRef s) !! fillLayerId id).

(** The derived state computed from a ring and the temperatures sampled
    for it. *)
Definition derivedFrom (id : string) (ring : list Coord) (temps : list number) :
    option PolygonDatum * option Marker * option (list Coord) * option Layer :=
  let avg := average temps in
  let c := calculateCentroid ring in
  let col := getTemperatureColor avg in
  (Some {| avgTemp := avg; centroid := c |},
   Some {| lngLat := c; popupColor := col; popupTemp := avg |},
   Some ring,
   Some {| layerType := Fill; source := sourceId id; paintColor := col |}).

(** Props without any polygon configuration. *)
Definition noProps : MapViewProps := {| configByPolygon := ∅ |}.

(** A polygon feature with one ring. *)
Definition polygonFeature (id : string) (ring : list Coord) : Feature :=
  {| id := Some id; geometry := Polygon [ring] |}.

(** An answer of the weather provider with a first temperature. *)
Definition answer (t : number) : FetchOutcome := Json (TemperatureArray [Some t]).

(** Two closed rings of three distinct positions. *)
Definition ring1 : list Coord := [(0, 0); (2, 0); (0, 2); (0, 0)]%float.
Definition ring2 : list Coord := [(10, 10); (12, 10); (10, 12); (10, 10)]%float.

(** Polygon P is created with [ring1] (call 0) and updated to [ring2]
    (call 1) while call 0 is waiting for its first answer. *)
Definition updateWhileSampling : list Event :=
  [DrawCreate [polygonFeature "P" ring1]; DrawUpdate [polygonFeature "P" ring2]].

(** Call 1 gets its three answers. *)
Definition newPassEnds : list Event :=
  [FetchSettled 1 (answer 30%float); FetchSettled 1 (answer 30%float); FetchSettled 1 (answer 30%float)].

(** Then call 0 gets its three answers. *)
Definition stalePassEnds : list Event :=
  [FetchSettled 0 (answer 5%float); FetchSettled 0 (answer 5%float); FetchSettled 0 (answer 5%float)].

(** The request of a vertex: latitude first. *)
Definition request (c : Coord) : number * number := (c.2, c.1).

(** The state after the requests of the vertices [vs]. *)
Definition fetchAll (vs : list Coord) (s : State) : State :=
  {| polygonAvgTemp := polygonAvgTemp s; polygonCentroid := polygonCentroid s;
     polygonData := polygonData s; polygonTempMarkersRef := polygonTempMarkersRef s;
     mapRef := mapRef s; pending := pending s; nextPass := nextPass s;
     fetched := fetched s ++ (request <$> vs) |}.

(** A sampling pass for [p] has started between [s] and [s']: the request
    of its first vertex [c] has been sent and the call is suspended;
    nothing else has changed yet. *)
Definition passStarted (s s' : State) (c : Coord) (p : Pass) : Prop :=
  fetched s' = fetched s ++ [request c] /\
  pending s' = <[nextPass s := p]> (pending s) /\
  nextPass s' = S (nextPass s) /\
  polygonData s' = polygonData s /\
  polygonTempMarkersRef s' = polygonTempMarkersRef s /\
  mapRef s' = mapRef s.

(** A ring with two distinct positions, closed. *)
Definition segment : list Coord := [(1, 1); (2, 2); (1, 1)]%float.

(** An event that deletes no polygon: a create event, an update event or
    an answer of the weather provider. *)
Definition noDelete (ev : Event) : Prop :=
  match ev with
  | DrawDelete _ => False
  | _ => True
  end.

(** The call that ends when [ev] is handled in state [s]: the call that
    awaits the answer [ev], when its loop has no position left to visit,
    with the temperatures it has collected. (A call for a ring of at most
    one position ends within its draw event; it has no temperature.) *)
Definition endsAt (s : State) (ev : Event) : option Pass :=
  match ev with
  | FetchSettled k outcome =>
      match pending s !! k with
      | Some p =>
          match remaining p with
          | [] =>
              Some {| polygonId := polygonId p; coordinates := coordinates p;
                      remaining := [];
                      temperatures :=
                        push (temperatures p) (getTemperatureForCoordinate outcome) |}
          | _ :: _ => None
          end
      | None => None
      end
  | _ => None
  end.

(** The calls that end on an answer during a run, in the order in which
    they end. *)
Fixpoint ended (props : MapViewProps) (s : State) (evs : list Event) : list Pass :=
  match evs with
  | [] => []
  | ev :: evs => option_list (endsAt s ev) ++ ended props (step props s ev) evs
  end.

(** A call that has ended is a call for polygon [id] that has collected a
    temperature. *)
Definition sampled (id : string) (p : Pass) : bool :=
  bool_decide (polygonId p = id)
  && match temperatures p with [] => false | _ :: _ => true end.

(** The palette of the claim about the fill colour: the colour of an
    average, where the average compares with 10 and 25. *)
Definition builtIn (a : number) (colour : string) : Prop :=
  ((a <? 10)%float = true -> colour = "#ff0000") /\
  ((10 <=? a)%float = true -> (a <? 25)%float = true -> colour = "#0000ff") /\
  ((25 <=? a)%float = true -> colour = "#00ff00").

(** A ring in which the first position comes twice in a row. *)
Definition stutter : list Coord := [(0, 0); (0, 0); (3, 0); (0, 3); (0, 0)]%float.

End MapViewSpec.

(** ** The rest of the timeline slider: positions, marks and titles *)

Module TimelineView.

Import TimelineSlider.
Local Open Scope Z_scope.

(** [interface TimelineMark] *)
Record TimelineMark := { markIndex : Z; markLabel : string; isToday : bool }.

Section View.

(** [now]: the clock reading inside [generateTimelineData] at mount. *)
Variable now : Date.

(** [date.toLocaleDateString('en-US', { month: 'short', day: 'numeric' })]
    and [date.toLocaleDateString()]: the formatting of the locale is a
    parameter. *)
Variable toShortDate : Date -> string.
Variable toLocaleDateString : Date -> string.

Definition valueToPercent (value : Z) : Q :=
  ((inject_Z value / inject_Z (totalHours now - 1)) * 100)%Q.

Definition formatDateTime (index : Z) : string :=
  match slot now index with
  | Some data =>
      toLocaleDateString (date data) +:+ " " +:+ pretty (getHours (date data)) +:+ ":00"
  | None => ""
  end.

(** The loop of [generateMarks], from [i] on, for at most [fuel] turns. *)
Fixpoint generateMarks_loop (fuel : nat) (i : Z) : list TimelineMark :=
  match fuel with
  | O => []
  | S fuel =>
      if i <? totalHours now then
        match slot now i with
        | Some data =>
            {| markIndex := i; markLabel := toShortDate (date data);
               isToday := bool_decide (i = todayIndex) |}
            :: generateMarks_loop fuel (i + 24)
        | None => generateMarks_loop fuel (i + 24)
        end
      else []
  end.

(** [generateMarks]: the loop takes a step of 24 from 0, so [totalHours]
    turns are enough. *)
Definition generateMarks : list TimelineMark :=
  generateMarks_loop (Z.to_nat (totalHours now)) 0.

End View.

End TimelineView.

(** ** The parent of the timeline slider ([App.tsx]) *)

Module App.

Import TimelineSlider.
Local Open Scope Z_scope.

(** The state hooks of [App] that [handleTimeChange] writes; the dates of
    [timelineState] are compared by [getTime()]. *)
Record State := {
  timelineState : TimeChange;
  isUpdatingPolygons : bool
}.

(** The initial values: [clock] and [clock'] are the readings of
    [new Date()] and [Date.now()]. *)
Definition initialState (clock clock' : Date) : State :=
  {| timelineState := {| startTime := clock; endTime := clock' + 60 * 60 * 1000;
                         changeMode := ModeSingle |};
     isUpdatingPolygons := false |}.

Definition handleTimeChange (startTime endTime : Date) (mode : Mode) (a : State) : State :=
  let prevState := timelineState a in
  {| timelineState :=
       if (TimelineSlider.startTime prevState =? startTime)
          && (TimelineSlider.endTime prevState =? endTime)
          && bool_decide (changeMode prevState = mode)
       then prevState
       else {| startTime := startTime; endTime := endTime; changeMode := mode |};
     isUpdatingPolygons := true |}.

(** The slider mounted in the app. *)
Record System := { slider : TimelineSlider.State; app : State }.

(** One run of the effect of the slider: [onTimeChange] is
    [handleTimeChange]; an effect that throws calls nothing. *)
Definition deliver (call : option TimeChange) (a : State) : State :=
  match call with
  | Some c => handleTimeChange (startTime c) (endTime c) (changeMode c) a
  | None => a
  end.

Section Mounted.

Variable now : Date.

(** The first render: the effect of the slider runs once. *)
Definition mount (sliderClock appClock appClock' : Date) : System :=
  let s := TimelineSlider.initialState sliderClock in
  {| slider := s;
     app := deliver (notifyParent now s) (initialState appClock appClock') |}.

Definition systemStep (sys : System) (ev : Event) : System :=
  let s' := step now (slider sys) ev in
  {| slider := s';
     app := fold_left (fun a call => deliver call a) (effects now (slider sys) s') (app sys) |}.

Definition systemRun (sys : System) (evs : list Event) : System :=
  fold_left systemStep evs sys.

End Mounted.

End App.

(** ** The rest of the map view: the second centroid *)

Module MapViewMore.

Import MapView.

(** The result of [getPolygonCentroid]. *)
Record LatLon := { lon : number; lat : number }.

(** [getPolygonCentroid]: the mean of all the positions it is given. *)
Definition getPolygonCentroid (coords : list Coord) : LatLon :=
  let len := length coords in
  let '(x, y) :=
    fold_left (fun '(x, y) c => (x + c.1, y + c.2)%float) coords (0, 0)%float in
  {| lon := (x / number_of_Z (Z.of_nat len))%float;
     lat := (y / number_of_Z (Z.of_nat len))%float |}.

End MapViewMore.

(** ** The store ([store.ts]) *)

Module Store.

Import MapView.

(** [ThresholdRule] of the store: an operator and a value. *)
Record ThresholdRule := { operator : Operator; value : number }.

Record PolygonConfig := {
  id : string;
  coordinates : list Coord;
  dataSource : string;
  rule : ThresholdRule;
  color : string
}.

(** [Partial<PolygonConfig>]: each property is there or not. The entries
    of [polygons] are kept in this form: [updatePolygon] can make an entry
    that lacks properties. *)
Record PartialPolygonConfig := {
  id' : option string;
  coordinates' : option (list Coord);
  dataSource' : option string;
  rule' : option ThresholdRule;
  color' : option string
}.

(** An object with all the properties of a configuration. *)
Definition whole (config : PolygonConfig) : PartialPolygonConfig :=
  {| id' := Some (id config); coordinates' := Some (coordinates config);
     dataSource' := Some (dataSource config); rule' := Some (rule config);
     color' := Some (color config) |}.

(** The object without properties, [{}]. *)
Definition noProperties : PartialPolygonConfig :=
  {| id' := None; coordinates' := None; dataSource' := None; rule' := None;
     color' := None |}.

(** A property of [{ ...a, ...b }]: the one of [b] if it is there. *)
Definition property {A} (a b : option A) : option A :=
  match b with
  | Some x => Some x
  | None => a
  end.

(** [{ ...a, ...b }] *)
Definition spread (a b : PartialPolygonConfig) : PartialPolygonConfig :=
  {| id' := property (id' a) (id' b);
     coordinates' := property (coordinates' a) (coordinates' b);
     dataSource' := property (dataSource' a) (dataSource' b);
     rule' := property (rule' a) (rule' b);
     color' := property (color' a) (color' b) |}.

(** [interface DashboardState], without its functions; [WeatherDataCache]
    is a map from polygon ids to maps from timestamps to numbers. *)
Record DashboardState := {
  polygons : gmap string PartialPolygonConfig;
  selectedTimeRange : string * string;
  weatherData : gmap string (gmap string number)
}.

Definition addPolygon (config : PolygonConfig) (state : DashboardState) : DashboardState :=
  {| polygons := <[id config := whole config]> (polygons state);
     selectedTimeRange := selectedTimeRange state;
     weatherData := weatherData state |}.

(** [state.polygons[id]] is [undefined] for an id that is not there, and
    spreading [undefined] gives no property. *)
Definition updatePolygon (id : string) (updates : PartialPolygonConfig)
    (state : DashboardState) : DashboardState :=
  {| polygons :=
       <[id := spread (default noProperties (polygons state !! id)) updates]>
         (polygons state);
     selectedTimeRange := selectedTimeRange state;
     weatherData := weatherData state |}.

Definition deletePolygon (id : string) (state : DashboardState) : DashboardState :=
  {| polygons := delete id (polygons state);
     selectedTimeRange := selectedTimeRange state;
     weatherData := weatherData state |}.

Definition setSelectedTimeRange (range : string * string) (state : DashboardState) :
    DashboardState :=
  {| polygons := polygons state; selectedTimeRange := range;
     weatherData := weatherData state |}.

(** [{ ...state.weatherData[polygonId], ...data }]: the timestamps of
    [data] first, then the ones that were there. *)
Definition setWeatherData (polygonId : string) (data : gmap string number)
    (state : DashboardState) : DashboardState :=
  {| polygons := polygons state; selectedTimeRange := selectedTimeRange state;
     weatherData :=
       <[polygonId := data ∪ default ∅ (weatherData state !! polygonId)]>
         (weatherData state) |}.

End Store.

(** ** The sidebar ([Sidebar.tsx]) *)

Module Sidebar.

Import MapView.

(** [Partial<ThresholdRule>], as the sidebar has the rule: each property
    is there or not. *)
Record RuleUpdates := {
  newRuleId : option string;
  newOperator : option Operator;
  newValue : option number;
  newColor : option string;
  newLabel : option string
}.

(** [{ ...threshold, ...updates }] *)
Definition updateRule (threshold : SidebarRule) (updates : RuleUpdates) : SidebarRule :=
  {| ruleId := default (ruleId threshold) (newRuleId updates);
     rule := {| operator := default (operator (rule threshold)) (newOperator updates);
                value := default (value (rule threshold)) (newValue updates);
                color := default (color (rule threshold)) (newColor updates) |};
     ruleLabel := match newLabel updates with
                  | Some l => Some l
                  | None => ruleLabel threshold
                  end |}.

(** [Partial<DataSource>]; [polygonId] can be there with the value
    [undefined]. *)
Record SourceUpdates := {
  newId : option string;
  newName : option string;
  newProvider : option string;
  newFields : option (list string);
  newSelectedField : option string;
  newThresholds : option (list SidebarRule);
  newIsActive : option bool;
  newPolygonId : option (option string)
}.

Definition noUpdates : SourceUpdates :=
  {| newId := None; newName := None; newProvider := None; newFields := None;
     newSelectedField := None; newThresholds := None; newIsActive := None;
     newPolygonId := None |}.

(** [{ thresholds }] *)
Definition thresholdsUpdate (thresholds : list SidebarRule) : SourceUpdates :=
  {| newId := None; newName := None; newProvider := None; newFields := None;
     newSelectedField := None; newThresholds := Some thresholds; newIsActive := None;
     newPolygonId := None |}.

(** [{ ...ds, ...updates }] *)
Definition updateSource (ds : DataSource) (updates : SourceUpdates) : DataSource :=
  {| dataSourceId := default (dataSourceId ds) (newId updates);
     name := default (name ds) (newName updates);
     provider := default (provider ds) (newProvider updates);
     fields := default (fields ds) (newFields updates);
     selectedField := default (selectedField ds) (newSelectedField updates);
     thresholds := default (thresholds ds) (newThresholds updates);
     isActive := default (isActive ds) (newIsActive updates);
     dataSourcePolygonId := default (dataSourcePolygonId ds) (newPolygonId updates) |}.

(** A template of [AVAILABLE_DATA_SOURCES]. *)
Record SourceTemplate := {
  templateName : string;
  templateProvider : string;
  templateFields : list string
}.

(** [AVAILABLE_DATA_SOURCES[sourceKey]] *)
Definition AVAILABLE_DATA_SOURCES (sourceKey : string) : option SourceTemplate :=
  if decide (sourceKey = "open-meteo") then
    Some {| templateName := "Open-Meteo Weather"; templateProvider := "Open-Meteo";
            templateFields :=
              ["temperature_2m"; "relative_humidity_2m"; "precipitation";
               "wind_speed_10m"; "wind_direction_10m"; "pressure_msl";
               "cloud_cover"; "visibility"] |}
  else if decide (sourceKey = "air-quality") then
    Some {| templateName := "Air Quality Index"; templateProvider := "OpenWeatherMap";
            templateFields := ["pm2_5"; "pm10"; "co"; "no2"; "so2"; "o3"; "aqi"] |}
  else if decide (sourceKey = "satellite") then
    Some {| templateName := "Satellite Data"; templateProvider := "NASA";
            templateFields :=
              ["ndvi"; "lst"; "precipitation_accumulated"; "soil_moisture"] |}
  else None.

(** The state hooks of the sidebar that its handlers write. *)
Record State := {
  dataSources : list DataSource;
  expandedSources : gset string;
  showAddDataSource : bool
}.

(** The first data source, with its three rules. *)
Definition initialState : State :=
  {| dataSources :=
       [ {| dataSourceId := "default-open-meteo"; name := "Open-Meteo Weather";
            provider := "Open-Meteo";
            fields :=
              ["temperature_2m"; "relative_humidity_2m"; "precipitation";
               "wind_speed_10m"; "wind_direction_10m"; "pressure_msl";
               "cloud_cover"; "visibility"];
            selectedField := "temperature_2m";
            thresholds :=
              [ {| ruleId := "1";
                   rule := {| operator := OpLt; value := 10%float; color := "#FF0000" |};
                   ruleLabel := Some "Cold" |};
                {| ruleId := "2";
                   rule := {| operator := OpGe; value := 10%float; color := "#0000FF" |};
                   ruleLabel := Some "Moderate" |};
                {| ruleId := "3";
                   rule := {| operator := OpGe; value := 25%float; color := "#00FF00" |};
                   ruleLabel := Some "Warm" |} ];
            isActive := true; dataSourcePolygonId := None |} ];
     expandedSources := {["default-open-meteo"]};
     showAddDataSource := false |}.

Definition toggleSourceExpansion (sourceId : string) (s : State) : State :=
  {| dataSources := dataSources s;
     expandedSources :=
       if decide (sourceId ∈ expandedSources s)
       then expandedSources s ∖ {[sourceId]}
       else expandedSources s ∪ {[sourceId]};
     showAddDataSource := showAddDataSource s |}.

(** [addDataSource]; [clock] is the reading of [Date.now()]. An unknown
    key throws before any state is set. *)
Definition addDataSource (sourceKey : string) (clock : Z) (s : State) : State :=
  match AVAILABLE_DATA_SOURCES sourceKey with
  | None => s
  | Some sourceTemplate =>
      let newSource :=
        {| dataSourceId := sourceKey +:+ "-" +:+ pretty clock;
           name := templateName sourceTemplate;
           provider := templateProvider sourceTemplate;
           fields := templateFields sourceTemplate;
           selectedField := default "" (head (templateFields sourceTemplate));
           thresholds :=
             [ {| ruleId := "1";
                  rule := {| operator := OpLt; value := 50%float; color := "#FF0000" |};
                  ruleLabel := None |};
               {| ruleId := "2";
                  rule := {| operator := OpGe; value := 50%float; color := "#00FF00" |};
                  ruleLabel := None |} ];
           isActive := true; dataSourcePolygonId := None |} in
      {| dataSources := dataSources s ++ [newSource];
         expandedSources := expandedSources s ∪ {[dataSourceId newSource]};
         showAddDataSource := false |}
  end.

Definition removeDataSource (sourceId : string) (s : State) : State :=
  {| dataSources :=
       filter (fun ds => dataSourceId ds <> sourceId) (dataSources s);
     expandedSources := expandedSources s ∖ {[sourceId]};
     showAddDataSource := showAddDataSource s |}.

Definition updateDataSource (sourceId : string) (updates : SourceUpdates) (s : State) :
    State :=
  {| dataSources :=
       (fun ds => if decide (dataSourceId ds = sourceId)
                  then updateSource ds updates else ds) <$> dataSources s;
     expandedSources := expandedSources s;
     showAddDataSource := showAddDataSource s |}.

(** [dataSources.find(ds => ds.id === sourceId)] *)
Definition findSource (sourceId : string) (s : State) : option DataSource :=
  List.find (fun ds => bool_decide (dataSourceId ds = sourceId)) (dataSources s).

(** [addThreshold]; [clock] is the reading of [Date.now()]. *)
Definition addThreshold (sourceId : string) (clock : Z) (s : State) : State :=
  let newThreshold :=
    {| ruleId := pretty clock;
       rule := {| operator := OpLt; value := 0%float; color := "#808080" |};
       ruleLabel := None |} in
  updateDataSource sourceId
    (thresholdsUpdate
       (default [] (thresholds <$> findSource sourceId s) ++ [newThreshold])) s.

Definition updateThreshold (sourceId thresholdId : string) (updates : RuleUpdates)
    (s : State) : State :=
  match findSource sourceId s with
  | None => s
  | Some source =>
      let updatedThresholds :=
        (fun threshold =>
           if decide (ruleId threshold = thresholdId)
           then updateRule threshold updates else threshold) <$> thresholds source in
      updateDataSource sourceId (thresholdsUpdate updatedThresholds) s
  end.

Definition removeThreshold (sourceId thresholdId : string) (s : State) : State :=
  match findSource sourceId s with
  | None => s
  | Some source =>
      if (length (thresholds source) <=? 1)%nat then s
      else
        let updatedThresholds :=
          filter (fun threshold => ruleId threshold <> thresholdId) (thresholds source) in
        updateDataSource sourceId (thresholdsUpdate updatedThresholds) s
  end.

End Sidebar.

(** ** Notions used to state more properties of the map view *)

Module MapViewMoreSpec.

Import MapView MapViewSpec.

(** The marker that shows an entry of [polygonData]. *)
Definition markerOf (d : PolygonDatum) : Marker :=
  {| lngLat := centroid d; popupColor := getTemperatureColor (avgTemp d);
     popupTemp := avgTemp d |}.

(** The markers, the entries of [polygonData] and the sources go
    together: a polygon has a marker exactly when it has an entry, and the
    marker shows the entry; it has a source exactly when it has an entry,
    and the centroid of the entry is the centroid of the ring of the
    source. *)
Definition consistent (s : State) : Prop :=
  (forall i, polygonTempMarkersRef s !! i = markerOf <$> polygonData s !! i) /\
  (forall i, is_Some (sources (mapRef s) !! sourceId i) <-> is_Some (polygonData s !! i)) /\
  (forall i d ring,
     polygonData s !! i = Some d -> sources (mapRef s) !! sourceId i = Some ring ->
     centroid d = calculateCentroid ring).

(** The ids that a delete event removes. *)
Definition deletedIds (features : list Feature) : list string :=
  omap (fun feature => truthy (id feature)) features.

(** Nothing is held about a polygon. *)
Definition noDerivedState :
    option PolygonDatum * option Marker * option (list Coord) * option Layer :=
  (None, None, None, None).

End MapViewMoreSpec.

(** ** Notions used to state more properties of the timeline slider *)

Module TimelineMoreSpec.

Import TimelineSlider.
Local Open Scope Z_scope.

(** The pointer at horizontal position [x] over a slider of rectangle [r]. *)
Definition pointerAt (r : DOMRect) (x : Q) : MouseEvent :=
  {| clientX := x; sliderRect := Some r |}.

(** The mark of day [d] of the window, for a formatting [toShortDate]:
    at the first slot of the day, labelled with the local midnight of that
    day, and marked as today for day 15. *)
Definition dayMark (now : Date) (toShortDate : Date -> string) (d : nat) :
    TimelineView.TimelineMark :=
  {| TimelineView.markIndex := 24 * Z.of_nat d;
     TimelineView.markLabel := toShortDate (addDays (setHours0 now) (Z.of_nat d - 15));
     TimelineView.isToday := bool_decide (d = 15%nat) |}.

End TimelineMoreSpec.

(** ** Notions used to state the properties of the app and of the sidebar *)

Module AppSpec.

Import TimelineSlider TimelineSpec App.

(** The slider and the app agree: the handles are in range, the app holds
    the window of the slider and its loading flag is set. *)
Definition in_sync (now : Date) (sys : System) : Prop :=
  handles_ok (slider sys) /\
  notifyParent now (slider sys) = Some (timelineState (app sys)) /\
  isUpdatingPolygons (app sys) = true.

End AppSpec.

Module SidebarSpec.

Import MapView Sidebar.

(** The rules of a source after an edit of the rules of id [thresholdId]. *)
Definition editedRules (thresholdId : string) (updates : RuleUpdates)
    (thresholds : list SidebarRule) : list SidebarRule :=
  (fun threshold =>
     if decide (ruleId threshold = thresholdId)
     then updateRule threshold updates else threshold) <$> thresholds.

(** The rules of a source without the rules of id [thresholdId]. *)
Definition otherRules (thresholdId : string) (thresholds : list SidebarRule) :
    list SidebarRule :=
  filter (fun threshold => ruleId threshold <> thresholdId) thresholds.

(** A source with other rules. *)
Definition withThresholds (ds : DataSource) (thresholds : list SidebarRule) : DataSource :=
  updateSource ds (thresholdsUpdate thresholds).

(** The sources, with the rules of the sources of id [sourceId] changed by
    [f]. *)
Definition mapThresholds (sourceId : string)
    (f : list SidebarRule -> list SidebarRule) (dataSources : list DataSource) :
    list DataSource :=
  (fun ds => if decide (dataSourceId ds = sourceId)
             then withThresholds ds (f (thresholds ds)) else ds) <$> dataSources.

(** The rule that [addThreshold] adds. *)
Definition newThreshold (clock : Z) : SidebarRule :=
  {| ruleId := pretty clock;
     rule := {| operator := OpLt; value := 0%float; color := "#808080" |};
     ruleLabel := None |}.

(** The sources have distinct ids. *)
Definition distinctSources (s : State) : Prop :=
  NoDup (dataSourceId <$> dataSources s).

End SidebarSpec.

(** ** Properties of the timeline slider *)

Module TimelineFacts.

Import TimelineSlider TimelineSpec.
Local Open Scope Z_scope.

(** *** The slots *)

Lemma flat_map_seq_lookup {A} (f : nat -> nat -> A) (k : nat) :
  forall (m a n : nat), (0 < k)%nat -> (n < m * k)%nat ->
    flat_map (fun d => List.map (f d) (seq 0 k)) (seq a m) !! n
    = Some (f (a + n / k)%nat (n mod k)%nat).
Proof.
  induction m as [|m IH]; intros a n Hk Hn; [lia|].
  cbn [seq flat_map].
  destruct (decide (n < k)%nat) as [Hlt|Hge].
  - rewrite lookup_app_l by (rewrite length_map, length_seq; lia).
    rewrite list_lookup_fmap.
    rewrite lookup_seq_lt by lia. cbn.
    rewrite Nat.div_small, Nat.mod_small by lia.
    by rewrite Nat.add_0_r.
  - rewrite lookup_app_r by (rewrite length_map, length_seq; lia).
    rewrite length_map, length_seq.
    rewrite IH by lia.
    replace n with ((n - k) + 1 * k)%nat at 3 4 by lia.
    rewrite Nat.div_add, Nat.Div0.mod_add by lia.
    do 2 f_equal. lia.
Qed.

Lemma totalHours_720 (now : Date) : totalHours now = 720.
Proof. reflexivity. Qed.

Lemma slot_in_range (now : Date) (i : Z) :
  0 <= i <= 719 ->
  slot now i = Some {| index := i; date := slotTime now i |}.
Proof.
  intros Hi. unfold slot.
  destruct (Z.ltb_spec i 0) as [?|_]; [lia|].
  unfold timelineData, generateTimelineData.
  rewrite flat_map_seq_lookup by lia.
  set (n := Z.to_nat i).
  assert (Hn : i = Z.of_nat n) by (subst n; lia).
  pose proof (Nat.div_mod_eq n 24) as Hdm.
  f_equal. f_equal.
  - lia.
  - unfold slotTime, addHours, addDays, msPerDay. cbn [Nat.add]. lia.
Qed.

Lemma getHours_range (d : Date) : 0 <= getHours d <= 23.
Proof. unfold getHours. pose proof (Z.mod_pos_bound (d / msPerHour) 24). lia. Qed.

(** *** From the pointer to a slot index *)

Lemma Qfloor_half (n : Z) : Qfloor (inject_Z n + (1 # 2)) = n.
Proof.
  unfold Qfloor, Qplus, inject_Z. cbn.
  symmetry. apply (Z.div_unique _ _ _ 1); lia.
Qed.

Lemma Math_round_range (x : Q) (n : Z) :
  (0 <= x)%Q -> (x <= inject_Z n)%Q -> 0 <= Math_round x <= n.
Proof.
  intros H0 Hn. unfold Math_round. split.
  - rewrite <- (Qfloor_half 0). apply Qfloor_resp_le.
    by apply Qplus_le_l.
  - rewrite <- (Qfloor_half n) at 1. apply Qfloor_resp_le.
    by apply Qplus_le_l.
Qed.

Lemma percentToValue_range (now : Date) (p : Q) :
  (0 <= p)%Q -> (p <= 100)%Q -> 0 <= percentToValue now p <= 719.
Proof.
  intros H0 H100. unfold percentToValue.
  change (totalHours now - 1) with 719.
  apply Math_round_range.
  - apply Qmult_le_0_compat; [|done].
    apply Qle_shift_div_l; [done|]. by rewrite Qmult_0_l.
  - rewrite <- (Qmult_1_l (inject_Z 719)) at 2.
    apply Qmult_le_compat_r; [|done].
    apply Qle_shift_div_r; [done|]. by rewrite Qmult_1_l.
Qed.

Lemma getMousePosition_range (now : Date) (e : MouseEvent) :
  0 <= getMousePosition now e <= 719.
Proof.
  unfold getMousePosition. destruct (sliderRect e) as [rect|]; [|lia].
  apply percentToValue_range.
  - apply Q.le_max_l.
  - apply Q.max_lub; [done|apply Q.le_min_l].
Qed.

(** *** The invariant of the handles *)

Lemma initialState_ok (clock : Date) : handles_ok (initialState clock).
Proof.
  unfold handles_ok, initialState, todayIndex. cbn.
  pose proof (getHours_range clock). lia.
Qed.

Lemma step_ok (now : Date) (s : State) (ev : Event) :
  handles_ok s -> handles_ok (step now s ev).
Proof.
  unfold handles_ok. intros (Hs & Hr & He).
  destruct ev as [h x|e|  |e| | |clock| ]; cbn.
  - done.
  - unfold handleMouseMove. pose proof (getMousePosition_range now e).
    rewrite totalHours_720.
    destruct (dragState s) as [d|]; [|done].
    destruct (mode s); [cbn; lia|].
    destruct (type d); cbn; lia.
  - done.
  - unfold handleSliderClick. pose proof (getMousePosition_range now e).
    rewrite totalHours_720.
    destruct (dragState s); [done|].
    destruct (mode s); [cbn; lia|].
    destruct (_ <? _); cbn; lia.
  - done.
  - done.
  - unfold goToNow, todayIndex. pose proof (getHours_range clock).
    destruct (mode s); cbn; lia.
  - unfold goToToday, todayIndex. destruct (mode s); cbn; lia.
Qed.

Lemma run_app (now : Date) (s : State) (evs evs' : list Event) :
  run now s (evs ++ evs') = run now (run now s evs) evs'.
Proof. apply fold_left_app. Qed.

Lemma run_ok (now : Date) (evs : list Event) (s : State) :
  handles_ok s -> handles_ok (run now s evs).
Proof.
  revert s. induction evs as [|ev evs IH]; intros s Hs; [done|].
  cbn. apply IH. by apply step_ok.
Qed.

Lemma reachable_ok (now clock : Date) (evs : list Event) :
  handles_ok (run now (initialState clock) evs).
Proof. apply run_ok, initialState_ok. Qed.

(** *** Clamping (C2) *)



(** *** Clicks on the track (C3) *)

(** C3, amended. A click on the track while no drag is in progress, at slot
    index [i]: in single mode the handle is set to [i]; in range mode the
    start handle is set to [i] when [i] is strictly closer to it, and
    otherwise, also when [i] is as far from the one as from the other, the
    end handle is set to [i]. The other handle does not move. *)
Theorem click_moves_nearest_handle (now clock : Date) (evs : list Event) (e : MouseEvent) :
  let s := run now (initialState clock) evs in
  let i := getMousePosition now e in
  dragState s = None ->
  handleSliderClick now e s =
    match mode s with
    | ModeSingle => setSingleHandle i s
    | ModeRange =>
        if Z.abs (i - rangeStart s) <? Z.abs (i - rangeEnd s)
        then setRangeStart i s
        else setRangeEnd i s
    end.
Proof.
  intros s i Hd.
  pose proof (reachable_ok now clock evs) as (Hs & Hr & He). fold s in Hs, Hr, He.
  pose proof (getMousePosition_range now e) as Hi. fold i in Hi.
  unfold handleSliderClick. rewrite Hd. fold i. rewrite totalHours_720.
  destruct (mode s); [done|].
  destruct (Z.ltb_spec (Z.abs (i - rangeStart s)) (Z.abs (i - rangeEnd s))).
  - f_equal. lia.
  - f_equal. lia.
Qed.

Lemma click_moves_nearest_handle_witness :
  let s := run 0 (initialState 0) [ClickRangeSelection] in
  dragState s = None /\ handleSliderClick 0 click372 s = setRangeEnd 372 s.
Proof.
  split; [reflexivity|].
  exact (click_moves_nearest_handle 0 0 [ClickRangeSelection] click372 eq_refl).
Defined.

(** C3, as stated, fails on a tie: with the handles at 360 and 384 a click
    at index 372 is 12 slots from both, and it is the end handle that
    moves. *)
Lemma click_tie_moves_end :
  let s := run 0 (initialState 0) [ClickRangeSelection] in
  let s' := step 0 s (SliderClick click372) in
  getMousePosition 0 click372 = 372 /\
  (rangeStart s, rangeEnd s) = (360, 384) /\
  Z.abs (372 - rangeStart s) = Z.abs (372 - rangeEnd s) /\
  rangeStart s' = 360 /\ rangeStart s' <> 372 /\ rangeEnd s' = 372.
Proof. vm_compute. repeat split; congruence. Qed.

(** *** Mode switches (C8) *)

Lemma modeButton_step (now : Date) (m : Mode) (s : State) :
  step now s (modeButton m) = setMode m s.
Proof. by destruct m. Qed.

(** C8. A click on a mode button sets the mode and nothing else: the single
    handle and the range handles are the same before and after, for one
    switch, for the round trips single, range, single and range, single,
    range, and for every sequence of mode switches. *)
Theorem mode_switch_keeps_handles (now : Date) (s : State) :
  (forall m, handles (step now s (modeButton m)) = handles s /\
             mode (step now s (modeButton m)) = m /\
             dragState (step now s (modeButton m)) = dragState s) /\
  run now s [ClickRangeSelection; ClickSingleHandle] = setMode ModeSingle s /\
  run now s [ClickSingleHandle; ClickRangeSelection] = setMode ModeRange s /\
  (forall ms, handles (run now s (modeButton <$> ms)) = handles s).
Proof.
  split; [by intros []|]. split; [done|]. split; [done|].
  intros ms. revert s. induction ms as [|m ms IH]; intros s; [done|].
  cbn [fmap list_fmap run fold_left]. rewrite modeButton_step.
  etrans; [apply IH|done].
Qed.

(** *** Notifications (C9) *)

(** The slots of a time zone: there are 720 of them, in the order of their
    indices. *)
Lemma zoned_slot_in_range (zone : ZonedDate.TimeZone) (now : Date) (i : Z) :
  0 <= i <= 719 ->
  exists p, ZonedDate.slot zone now i = Some p /\ index p = i.
Proof.
  intros Hi. unfold ZonedDate.slot.
  destruct (Z.ltb_spec i 0) as [?|_]; [lia|].
  unfold ZonedDate.timelineData, ZonedDate.generateTimelineData.
  rewrite flat_map_seq_lookup by lia.
  eexists. split; [reflexivity|]. cbn [index Nat.add].
  pose proof (Nat.div_mod_eq (Z.to_nat i) 24). lia.
Qed.

(** [setHours(getHours() + 1)] moves the local time by one hour. *)
Lemma next_hour_local (t : Z) :
  t / msPerDay * msPerDay + (ZonedDate.HourFromTime t + 1) * msPerHour + t mod msPerHour
  = t + msPerHour.
Proof.
  unfold ZonedDate.HourFromTime, msPerDay.
  replace (24 * msPerHour) with (msPerHour * 24) by lia.
  rewrite <- (Z.div_div t msPerHour 24) by (by vm_compute).
  pose proof (Z.div_mod t msPerHour ltac:(by vm_compute)) as Ht.
  pose proof (Z.div_mod (t / msPerHour) 24 ltac:(lia)) as Hq.
  set (q := t / msPerHour) in *. set (r := t mod msPerHour) in *.
  set (a := q / 24) in *. set (b := q mod 24) in *.
  unfold msPerHour in *. lia.
Qed.

Lemma next_hour (zone : ZonedDate.TimeZone) (d : Date) :
  ZonedDate.setHours zone d (ZonedDate.getHours zone d + 1)
  = d + msPerHour
    + (ZonedDate.offsetAt zone d
       - ZonedDate.offsetOfLocal zone (ZonedDate.LocalTime zone d + msPerHour)).
Proof.
  unfold ZonedDate.setHours, ZonedDate.getHours. cbv zeta.
  rewrite next_hour_local. unfold ZonedDate.UTC, ZonedDate.LocalTime. lia.
Qed.

(** In a zone of fixed offset the slots are those of [TimelineSlider], read
    as instants. *)
Lemma zoned_slot_fixed (c : Z) (now : Date) (i : Z) :
  0 <= i <= 719 ->
  ZonedDate.slot (ZonedDate.fixedOffset c) now i
  = Some {| index := i; date := slotInstant c now i |}.
Proof.
  intros Hi. unfold ZonedDate.slot.
  destruct (Z.ltb_spec i 0) as [?|_]; [lia|].
  unfold ZonedDate.timelineData, ZonedDate.generateTimelineData.
  rewrite flat_map_seq_lookup by lia.
  set (n := Z.to_nat i).
  assert (Hn : i = Z.of_nat n) by (subst n; lia).
  pose proof (Nat.div_mod_eq n 24) as Hdm.
  cbn [Nat.add]. f_equal. f_equal; [lia|].
  unfold slotInstant, slotTime, setHours0, addDays.
  unfold ZonedDate.setHours, ZonedDate.addDays, ZonedDate.setHours0,
    ZonedDate.UTC, ZonedDate.LocalTime, ZonedDate.fixedOffset.
  cbn [ZonedDate.offsetAt ZonedDate.offsetOfLocal].
  set (k := (now + c + -15 * msPerDay) / msPerDay).
  replace ((now + c + -15 * msPerDay - c + c) / msPerDay) with k
    by (subst k; f_equal; lia).
  replace (k * msPerDay - c + c + Z.of_nat (n / 24) * msPerDay - c + c)
    with ((k + Z.of_nat (n / 24)) * msPerDay) by lia.
  rewrite Z.div_mul by (by vm_compute).
  replace ((k + Z.of_nat (n / 24)) * msPerDay)
    with ((k + Z.of_nat (n / 24)) * 24 * msPerHour) at 2 by (unfold msPerDay; lia).
  rewrite Z.mod_mul by (by vm_compute).
  unfold msPerDay. lia.
Qed.

(** In a zone of fixed offset the window notified to the parent is the one
    of [TimelineSlider], read as instants: the local times of
    [TimelineSlider] are the dates of the code in such a zone. *)
Lemma notifyParent_fixed (c : Z) (now : Date) (s : State) :
  handles_ok s ->
  ZonedDate.notifyParent (ZonedDate.fixedOffset c) now s
  = instants c <$> notifyParent (now + c) s.
Proof.
  intros (Hs & Hr & He). unfold ZonedDate.notifyParent, notifyParent.
  destruct (mode s).
  - rewrite zoned_slot_fixed, slot_in_range by lia. cbn.
    rewrite next_hour. unfold instants, slotInstant, addHours. cbn.
    do 2 f_equal. lia.
  - by rewrite !zoned_slot_fixed, !slot_in_range by lia.
Qed.

(** Where the clocks go forward, the hour they skip is read as the hour
    after it: in New York, the slider being mounted on 10 March 2026, slot
    314 (8 March, 02:00) and slot 315 have the same date, at hour 3, and
    the window of slot 313 (01:00) is one hour long. *)
Example skipped_hour_slot :
  let zone := newYorkSpring2026 in
  let slotDate i := date <$> ZonedDate.slot zone noon10March2026 i in
  slotDate 313 = Some 1772949600000 /\
  slotDate 314 = Some 1772953200000 /\
  slotDate 315 = Some 1772953200000 /\
  ZonedDate.getHours zone 1772953200000 = 3 /\
  ZonedDate.setHours zone 1772949600000 (ZonedDate.getHours zone 1772949600000 + 1)
  = 1772949600000 + msPerHour.
Proof. by vm_compute. Qed.

(** C9, amended. When an event changes a handle or the mode, the effect
    calls [onTimeChange] once, with the mode after the change and with: in
    single mode the date of the handle's slot and that date after
    [setHours(getHours() + 1)]; in range mode the dates of the start slot
    and of the end slot. When no handle and not the mode has changed, it is
    not called. [setHours(getHours() + 1)] moves the local time by one
    hour: the end is one hour after the start, plus what the offset of the
    zone loses in between. In a zone of fixed offset the end is exactly one
    hour after the start, and slot [i] is [i] hours after the first slot.
    The track has a positive width whenever the pointer is read; the clock
    readings are instants, but for those of the events, which are local
    times. *)
Theorem onTimeChange_window (zone : ZonedDate.TimeZone) (now clock : Date)
    (evs : list Event) (ev : Event) :
  Forall laidOut evs -> laidOut ev ->
  let local := ZonedDate.LocalTime zone in
  let s := run (local now) (initialState (local clock)) evs in
  let s' := step (local now) s ev in
  (handles s' <> handles s \/ mode s' <> mode s ->
     exists call,
       ZonedDate.effects zone now s s' = [Some call] /\
       changeMode call = mode s' /\
       match mode s' with
       | ModeSingle =>
           exists p, ZonedDate.slot zone now (singleHandle s') = Some p /\
             index p = singleHandle s' /\
             startTime call = date p /\
             endTime call
             = ZonedDate.setHours zone (date p) (ZonedDate.getHours zone (date p) + 1)
       | ModeRange =>
           exists p q, ZonedDate.slot zone now (rangeStart s') = Some p /\
             ZonedDate.slot zone now (rangeEnd s') = Some q /\
             index p = rangeStart s' /\ index q = rangeEnd s' /\
             startTime call = date p /\ endTime call = date q
       end) /\
  (handles s' = handles s -> mode s' = mode s ->
     ZonedDate.effects zone now s s' = []) /\
  (forall d,
     ZonedDate.setHours zone d (ZonedDate.getHours zone d + 1)
     = d + msPerHour
       + (ZonedDate.offsetAt zone d
          - ZonedDate.offsetOfLocal zone (local d + msPerHour))) /\
  (forall c, zone = ZonedDate.fixedOffset c ->
     (forall d, ZonedDate.setHours zone d (ZonedDate.getHours zone d + 1)
                = d + msPerHour) /\
     (forall i, 0 <= i <= 719 ->
        ZonedDate.slot zone now i = Some {| index := i; date := slotInstant c now i |} /\
        slotInstant c now i = slotInstant c now 0 + i * msPerHour)).
Proof.
  intros _ _ local s s'.
  pose proof (reachable_ok (local now) (local clock) (evs ++ [ev])) as (Hs & Hr & He).
  rewrite run_app in Hs, Hr, He. cbn in Hs, Hr, He.
  fold s in Hs, Hr, He. fold s' in Hs, Hr, He.
  split; [|split; [|split]].
  - intros Hchange.
    assert (Hdeps : deps s <> deps s').
    { unfold deps. intros [= H1 H2 H3 H4].
      destruct Hchange as [Hh|Hm]; [|by apply Hm].
      apply Hh. unfold handles. by rewrite H1, H2, H3. }
    unfold ZonedDate.effects. rewrite decide_False by done.
    unfold ZonedDate.notifyParent.
    destruct (mode s').
    + destruct (zoned_slot_in_range zone now (singleHandle s') ltac:(lia)) as (p & Hp & Hi).
      rewrite Hp. cbn. eexists. split; [reflexivity|]. split; [done|].
      exists p. by repeat split.
    + destruct (zoned_slot_in_range zone now (rangeStart s') ltac:(lia)) as (p & Hp & Hi).
      destruct (zoned_slot_in_range zone now (rangeEnd s') ltac:(lia)) as (q & Hq & Hj).
      rewrite Hp, Hq. cbn. eexists. split; [reflexivity|]. split; [done|].
      exists p, q. by repeat split.
  - intros Hh Hm. unfold ZonedDate.effects. rewrite decide_True; [done|].
    unfold handles in Hh. injection Hh as H1 H2 H3.
    unfold deps. by rewrite H1, H2, H3, Hm.
  - intros d. apply next_hour.
  - intros c ->. split.
    + intros d. rewrite next_hour. cbn. lia.
    + intros i Hi. split; [by apply zoned_slot_fixed|].
      unfold slotInstant, slotTime. lia.
Qed.

Lemma onTimeChange_window_witness :
  let zone := ZonedDate.fixedOffset 19800000 in
  let s := run 19800000 (initialState 19800000) [] in
  let s' := step 19800000 s (SliderClick click361) in
  Forall laidOut [] /\ laidOut (SliderClick click361) /\
  (singleHandle s, singleHandle s') = (365, 361) /\
  exists call,
    ZonedDate.effects zone 0 s s' = [Some call] /\
    startTime call = slotInstant 19800000 0 361 /\
    endTime call = startTime call + msPerHour.
Proof.
  assert (Hevs : Forall laidOut []) by constructor.
  assert (Hev : laidOut (SliderClick click361)) by reflexivity.
  split; [exact Hevs|]. split; [exact Hev|]. split; [reflexivity|].
  destruct (onTimeChange_window (ZonedDate.fixedOffset 19800000) 0 0 []
              (SliderClick click361) Hevs Hev) as (Hcall & _ & _ & Hfixed).
  destruct (Hcall ltac:(left; vm_compute; congruence))
    as (call & Hcalls & _ & p & Hp & _ & Hstart & Hend).
  destruct (Hfixed 19800000 eq_refl) as [Hhour Hslot].
  destruct (Hslot 361 ltac:(lia)) as [Hslot361 _].
  change (ZonedDate.slot (ZonedDate.fixedOffset 19800000) 0 361 = Some p) in Hp.
  rewrite Hslot361 in Hp. injection Hp as <-.
  exists call. split; [exact Hcalls|]. split; [exact Hstart|].
  rewrite Hend, Hstart. apply Hhour.
Defined.

(** C9, as stated, fails where the offset of the zone changes. In New
    York, on the day the clocks go back, the slider being mounted at noon:
    a click on slot 361 selects 01:00 (05:00 UTC), and the window notified
    to the parent ends at 02:00 after the change (07:00 UTC), two hours
    after its start. *)
Lemma window_of_two_hours :
  let zone := newYorkAutumn2026 in
  let now := noon1November2026 in
  let s := run (ZonedDate.LocalTime zone now)
               (initialState (ZonedDate.LocalTime zone now)) [] in
  let s' := step (ZonedDate.LocalTime zone now) s (SliderClick click361) in
  let start := 1793509200000 in
  (singleHandle s, singleHandle s') = (372, 361) /\
  ZonedDate.effects zone now s s'
  = [Some {| startTime := start; endTime := start + 2 * msPerHour;
             changeMode := ModeSingle |}] /\
  start + 2 * msPerHour <> start + msPerHour /\
  (ZonedDate.getHours zone start, ZonedDate.getHours zone (start + 2 * msPerHour))
  = (1, 2).
Proof. vm_compute. repeat split; congruence. Qed.

End TimelineFacts.

(** ** Properties of the map view *)

Module MapViewFacts.

Import MapView MapViewSpec.
Set Warnings "-inexact-float".

(** *** Lists, keys and the order of numbers *)

Lemma slice_0_m1_snoc {A} (l : list A) (x : A) : slice_0_m1 (l ++ [x]) = l.
Proof.
  unfold slice_0_m1. rewrite length_app. cbn.
  apply take_app_length'. lia.
Qed.

Lemma string_length_app (a b : string) :
  String.length (a +:+ b) = String.length a + String.length b.
Proof. induction a as [|c a IH]; simpl; [done|]. f_equal. exact IH. Qed.

Lemma fill_outline_ne (id : string) : fillLayerId id <> outlineLayerId id.
Proof.
  unfold fillLayerId, outlineLayerId. intros H.
  apply (f_equal String.length) in H.
  rewrite !string_length_app in H. simpl in H. lia.
Qed.

Lemma compare_cont_antisym (p q : positive) :
  PosDef.Pos.compare_cont Eq q p = CompOpp (PosDef.Pos.compare_cont Eq p q).
Proof. exact (Pos.compare_antisym p q). Qed.

(** Case analysis on a number compared with the constants 10 and 25: the
    comparisons are unfolded to their specification and the cases of
    zeros, infinities, NaN and negative numbers are closed; what is left
    is a positive finite number, by its mantissa [m] and exponent [e]. *)
Ltac compare_with_constants t m e :=
  rewrite ?leb_spec, ?ltb_spec;
  change (Prim2SF 25) with (S754_finite false 7036874417766400 (-48));
  change (Prim2SF 10) with (S754_finite false 5629499534213120 (-49));
  unfold SFleb, SFltb, SFcompare;
  let s := fresh "s" in
  destruct (Prim2SF t) as [s|s| |s m e]; cbv beta iota;
  [by destruct s|by destruct s|discriminate|destruct s; [discriminate|]].

(** A number that is at least 10 is not below 10. *)
Lemma ge10_not_lt10 (t : number) : (10 <=? t)%float = true -> (t <? 10)%float = false.
Proof.
  compare_with_constants t m e.
  destruct (Z.compare_spec (-49) e), (Z.compare_spec e (-49)); try lia; try done.
  rewrite (compare_cont_antisym m).
  by destruct (PosDef.Pos.compare_cont Eq m _).
Qed.

(** A number that is at least 25 is neither below 10 nor below 25. *)
Lemma ge25_not_lt (t : number) :
  (25 <=? t)%float = true -> (t <? 10)%float = false /\ (t <? 25)%float = false.
Proof.
  compare_with_constants t m e.
  destruct (Z.compare_spec (-48) e), (Z.compare_spec e (-49)),
    (Z.compare_spec e (-48)); try lia; try done.
  rewrite (compare_cont_antisym m).
  by destruct (PosDef.Pos.compare_cont Eq m _).
Qed.

(** *** The mean *)

Lemma fold_left_total (values : list number) (sofar : number) :
  fold_left PrimFloat.add values sofar = total sofar values.
Proof.
  revert sofar. induction values as [|v values IH]; intros sofar; [done|].
  cbn. apply IH.
Qed.

(** The average of the code is the arithmetic mean. *)
Lemma average_mean (t : number) (ts : list number) :
  Some (average (t :: ts)) = mean (t :: ts).
Proof. unfold average, mean. by rewrite fold_left_total. Qed.

(** *** Classification (C4) *)

Lemma getPolygonColor_loop_find (a : number) (rules : list ThresholdRule) :
  getPolygonColor_loop a rules = classify (Some a) rules.
Proof.
  induction rules as [|rule rules IH]; [done|].
  cbn [getPolygonColor_loop classify List.find]. unfold holds at 1.
  destruct (operator rule);
    match goal with |- context [if ?b then _ else _] => destruct b end;
    done.
Qed.

Lemma find_first (a : number) (pre post : list ThresholdRule) (rule : ThresholdRule) :
  Forall (fun r => holds a r = false) pre -> holds a rule = true ->
  List.find (holds a) (pre ++ rule :: post) = Some rule.
Proof.
  induction 1 as [|r pre Hr _ IH]; intros Hrule; cbn.
  - by rewrite Hrule.
  - rewrite Hr. by apply IH.
Qed.

Lemma find_none (a : number) (rules : list ThresholdRule) :
  Forall (fun r => holds a r = false) rules -> List.find (holds a) rules = None.
Proof. induction 1 as [|r rules Hr _ IH]; cbn; [done|]. by rewrite Hr. Qed.

(** C4. [getPolygonColor] returns the neutral colour [#cccccc] for absent
    or empty weather data, whatever the rules. Otherwise it classifies the
    mean of the data: it returns the colour of the first rule of the list
    whose predicate holds against the mean, and the neutral colour when no
    rule holds. Under the three-rule palette, and under the built-in
    palette of [getTemperatureColor], 9.999 gets the first colour, 10 and
    24.999 the second and 25 the third. *)
Theorem getPolygonColor_first_match (rules : list ThresholdRule) :
  getPolygonColor None rules = neutral /\
  getPolygonColor (Some []) rules = neutral /\
  (forall w, getPolygonColor (Some w) rules = classify (mean w) rules) /\
  (forall a pre rule post,
     rules = pre ++ rule :: post ->
     Forall (fun r => holds a r = false) pre -> holds a rule = true ->
     classify (Some a) rules = color rule) /\
  (forall a, Forall (fun r => holds a r = false) rules ->
     classify (Some a) rules = neutral) /\
  (forall A B C,
     getPolygonColor (Some [9.999%float]) (palette A B C) = A /\
     getPolygonColor (Some [10%float]) (palette A B C) = B /\
     getPolygonColor (Some [24.999%float]) (palette A B C) = B /\
     getPolygonColor (Some [25%float]) (palette A B C) = C) /\
  (getTemperatureColor 9.999%float = "#ff0000" /\
   getTemperatureColor 10%float = "#0000ff" /\
   getTemperatureColor 24.999%float = "#0000ff" /\
   getTemperatureColor 25%float = "#00ff00").
Proof.
  split; [done|]. split; [done|]. split; [|split; [|split; [|split]]].
  - intros [|t w]; [done|]. rewrite <- average_mean. apply getPolygonColor_loop_find.
  - intros a pre rule post -> Hpre Hrule. cbn. by rewrite find_first.
  - intros a Hall. cbn. by rewrite find_none.
  - intros A B C. by vm_compute.
  - by vm_compute.
Qed.

Lemma getPolygonColor_first_match_witness :
  classify (Some 10%float) (palette "A" "B" "C") = "B".
Proof.
  destruct (getPolygonColor_first_match (palette "A" "B" "C")) as (_ & _ & _ & Hfirst & _).
  apply (Hfirst 10%float
           [{| operator := OpLt; value := 10%float; color := "A" |}]
           {| operator := OpLt; value := 25%float; color := "B" |}
           [{| operator := OpGe; value := 25%float; color := "C" |}]).
  - reflexivity.
  - repeat constructor.
  - reflexivity.
Defined.

(** *** Centroid (C6) *)

Lemma fold_left_pair (l : list Coord) (x y : number) :
  fold_left (fun '(x, y) '(lng, lat) => (x + lng, y + lat)%float) l (x, y)
  = (fold_left PrimFloat.add (l.*1) x, fold_left PrimFloat.add (l.*2) y).
Proof.
  revert x y. induction l as [|[lng lat] l IH]; intros x y; [done|].
  cbn. apply IH.
Qed.

(** C6, amended. [calculateCentroid] leaves out the last position of the
    ring it is given, whatever that position is: the centroid of a ring
    given with a closing position is the mean longitude and the mean
    latitude of the positions before it. *)
Theorem centroid_of_closed_ring (vs : list Coord) (closing : Coord) :
  calculateCentroid (vs ++ [closing]) = (average (vs.*1), average (vs.*2)).
Proof.
  unfold calculateCentroid, average.
  rewrite slice_0_m1_snoc, fold_left_pair, !length_fmap, length_app.
  cbn [length]. replace (Z.of_nat (length vs + 1) - 1)%Z with (Z.of_nat (length vs)) by lia.
  done.
Qed.

(** C6, as stated, fails for a ring given without its closing duplicate:
    of the three positions of [triangle], whose mean is (1, 1), the last
    is left out and the result is (1.5, 0); with the closing duplicate the
    result is (1, 1). *)
Lemma centroid_depends_on_closing_duplicate :
  calculateCentroid (triangle ++ [(0, 0)%float]) = (1, 1)%float /\
  (average (triangle.*1), average (triangle.*2)) = (1, 1)%float /\
  calculateCentroid triangle = (1.5, 0)%float /\
  calculateCentroid triangle <> (average (triangle.*1), average (triangle.*2)).
Proof.
  split; [by vm_compute|]. split; [by vm_compute|]. split; [by vm_compute|].
  intros H. apply (f_equal (fun c => (c.2 =? 1)%float)) in H.
  vm_compute in H. discriminate H.
Qed.

(** *** The derived state of a polygon *)

Lemma afterLoop_derivedState (p : Pass) (s : State) :
  temperatures p <> [] ->
  derivedState (afterLoop p s) (polygonId p)
  = derivedFrom (polygonId p) (coordinates p) (temperatures p).
Proof.
  intros Hne. unfold afterLoop, derivedState, derivedFrom.
  destruct (temperatures p) as [|t ts] eqn:Ht; [done|]. cbn.
  rewrite !lookup_insert_eq.
  rewrite lookup_insert_ne by (apply not_eq_sym, fill_outline_ne).
  by rewrite lookup_insert_eq.
Qed.

Lemma afterLoop_control (p : Pass) (s : State) :
  pending (afterLoop p s) = pending s /\
  nextPass (afterLoop p s) = nextPass s /\
  fetched (afterLoop p s) = fetched s /\
  polygonAvgTemp (afterLoop p s) = mean (temperatures p).
Proof.
  unfold afterLoop. destruct (temperatures p) as [|t ts]; [done|].
  by rewrite <- average_mean.
Qed.

Lemma resume_last (props : MapViewProps) (s : State) (k : nat) (p : Pass)
    (outcome : FetchOutcome) :
  pending s !! k = Some p -> remaining p = [] ->
  step props s (FetchSettled k outcome)
  = afterLoop {| polygonId := polygonId p; coordinates := coordinates p;
                 remaining := [];
                 temperatures := push (temperatures p) (getTemperatureForCoordinate outcome) |}
              (setPending (delete k) s).
Proof. intros Hk Hr. cbn. unfold resume. rewrite Hk. unfold loopHead. cbn. by rewrite Hr. Qed.

(** *** Stale passes (C1) *)

Lemma sourceId_eq (i j : string) : sourceId i = sourceId j -> i = j.
Proof. unfold sourceId. simpl. intros H. by simplify_eq. Qed.

Lemma fillLayerId_eq (i j : string) : fillLayerId i = fillLayerId j -> i = j.
Proof. unfold fillLayerId. simpl. intros H. by simplify_eq. Qed.

(** A call that ends with a temperature leaves alone what is held about
    the polygons it is not for, but for its outline layer. *)
Lemma afterLoop_other (p : Pass) (s : State) (P : string) :
  polygonId p <> P -> P <> polygonId p +:+ "-outline" ->
  derivedState (afterLoop p s) P = derivedState s P.
Proof.
  intros Hne Hout. unfold afterLoop.
  destruct (temperatures p); [done|].
  unfold derivedState. cbn.
  rewrite !lookup_insert_ne by (try done; intros ?%sourceId_eq; done).
  rewrite lookup_insert_ne by (intros H; apply Hout; by apply fillLayerId_eq).
  rewrite lookup_insert_ne by (intros ?%fillLayerId_eq; done).
  rewrite !lookup_delete_ne by (try done; intros ?%sourceId_eq; done).
  rewrite lookup_delete_ne by (intros H; apply Hout; by apply fillLayerId_eq).
  rewrite lookup_delete_ne by (intros ?%fillLayerId_eq; done).
  done.
Qed.

(** A draw event changes nothing of what is held about the polygons: the
    call it starts is suspended at its first request, or it ends at once
    without a temperature. *)
Lemma handlePolygonDraw_derivedState (coordinates : list Coord) (i : string)
    (s : State) (P : string) :
  derivedState (handlePolygonDraw coordinates i s) P = derivedState s P.
Proof.
  unfold handlePolygonDraw, loopHead. cbn [remaining].
  by destruct (slice_0_m1 coordinates) as [|[lng lat] rest].
Qed.

Lemma onDrawCreate_derivedState (features : list Feature) (s : State) (P : string) :
  derivedState (onDrawCreate features s) P = derivedState s P.
Proof.
  unfold onDrawCreate. destruct features as [|polygon features]; [done|].
  destruct (geometry polygon) as [rings|]; [|done].
  destruct rings as [|coordinates rings]; [done|].
  destruct (truthy (id polygon)); [|done].
  apply handlePolygonDraw_derivedState.
Qed.

Lemma onDrawUpdate_derivedState (features : list Feature) (s : State) (P : string) :
  derivedState (onDrawUpdate features s) P = derivedState s P.
Proof.
  unfold onDrawUpdate. revert s.
  induction features as [|feature features IH]; intros s; [done|].
  cbn [fold_left]. rewrite IH.
  destruct (geometry feature) as [rings|]; [|done].
  destruct rings as [|coordinates rings]; [done|].
  destruct (truthy (id feature)); [|done].
  apply handlePolygonDraw_derivedState.
Qed.

(** What one event does to the derived state of a polygon. *)
Lemma step_derivedState (props : MapViewProps) (s : State) (ev : Event) (P : string) :
  noDelete ev -> (forall Q, P <> Q +:+ "-outline") ->
  derivedState (step props s ev) P
  = match endsAt s ev with
    | Some p =>
        if sampled P p then derivedFrom P (coordinates p) (temperatures p)
        else derivedState s P
    | None => derivedState s P
    end.
Proof.
  intros Hev Hout. destruct ev as [features|features|?|k outcome]; [| |done|].
  - apply onDrawCreate_derivedState.
  - apply onDrawUpdate_derivedState.
  - cbn [step endsAt]. unfold resume.
    destruct (pending s !! k) as [p|] eqn:Hk; [|done].
    unfold loopHead. cbn [remaining polygonId coordinates temperatures].
    destruct (remaining p) as [|[lng lat] rest]; [|done].
    set (p' := {| polygonId := polygonId p; coordinates := coordinates p;
                  remaining := [];
                  temperatures :=
                    push (temperatures p) (getTemperatureForCoordinate outcome) |}).
    unfold sampled. destruct (temperatures p') as [|t ts] eqn:Ht.
    + rewrite andb_false_r. unfold afterLoop. by rewrite Ht.
    + rewrite andb_true_r. case_bool_decide as HP.
      * rewrite <- HP, <- Ht. apply afterLoop_derivedState. by rewrite Ht.
      * by rewrite afterLoop_other.
Qed.

(** The last element that passes a test decides a fold that keeps, at each
    element that passes the test, what is computed from that element. *)
Lemma fold_left_last {A B} (f : A -> bool) (g : A -> B) (l : list A) (b : B) :
  fold_left (fun b a => if f a then g a else b) l b
  = match last (List.filter f l) with
    | Some a => g a
    | None => b
    end.
Proof.
  revert b. induction l as [|a l IH]; intros b; [done|].
  cbn [fold_left List.filter]. rewrite IH.
  destruct (f a); [|done].
  rewrite last_cons. by destruct (last (List.filter f l)).
Qed.

Lemma run_derivedState (props : MapViewProps) (evs : list Event) (P : string) :
  Forall noDelete evs -> (forall Q, P <> Q +:+ "-outline") ->
  forall s,
    derivedState (run props s evs) P
    = fold_left (fun d p =>
                   if sampled P p then derivedFrom P (coordinates p) (temperatures p)
                   else d)
                (ended props s evs) (derivedState s P).
Proof.
  intros Hevs Hout. induction Hevs as [|ev evs Hev _ IH]; intros s; [done|].
  cbn [run fold_left ended]. fold (run props (step props s ev) evs).
  rewrite IH, fold_left_app. f_equal.
  rewrite (step_derivedState props s ev P Hev Hout).
  by destruct (endsAt s ev).
Qed.

(** C1, amended. There is no generation counter. A call of
    [handlePolygonDraw] that gets its last answer and has at least one
    temperature overwrites the derived state of its polygon (the entry of
    [polygonData], the marker, the source and the fill layer) with what it
    computes from its own ring and temperatures, whatever calls for the same
    polygon started or ended in between; a call that ends without a
    temperature writes nothing, and so does a create or update event. So,
    along every sequence of create events, update events and answers, in
    any order, the derived state of polygon [P] is that of the last call
    for [P] that ended with a temperature, and what it was before when no
    such call ended. The id of [P] is not the id of another polygon
    followed by ["-outline"]. *)
Theorem last_pass_to_end_wins (props : MapViewProps) (s : State) (evs : list Event)
    (P : string) :
  Forall noDelete evs ->
  (forall Q, P <> Q +:+ "-outline") ->
  derivedState (run props s evs) P
  = match last (List.filter (sampled P) (ended props s evs)) with
    | Some p => derivedFrom P (coordinates p) (temperatures p)
    | None => derivedState s P
    end.
Proof.
  intros Hevs Hout.
  rewrite (run_derivedState props evs P Hevs Hout s).
  apply (fold_left_last (sampled P)
           (fun p => derivedFrom P (coordinates p) (temperatures p))).
Qed.

Lemma last_pass_to_end_wins_witness :
  let evs := updateWhileSampling ++ newPassEnds ++ stalePassEnds in
  Forall noDelete evs /\
  (forall Q, "P" <> Q +:+ "-outline") /\
  derivedState (run noProps initialState evs) "P"
  = derivedFrom "P" ring1 [5; 5; 5]%float.
Proof.
  assert (Hevs : Forall noDelete (updateWhileSampling ++ newPassEnds ++ stalePassEnds))
    by (repeat constructor).
  assert (Hout : forall Q, "P" <> Q +:+ "-outline").
  { intros Q H. apply (f_equal String.length) in H.
    rewrite string_length_app in H. simpl in H. lia. }
  split; [exact Hevs|]. split; [exact Hout|].
  exact (last_pass_to_end_wins noProps initialState
           (updateWhileSampling ++ newPassEnds ++ stalePassEnds) "P" Hevs Hout).
Defined.

(** C1, as stated, fails: when the pass for [ring1] ends after the pass
    for [ring2], the derived state of P is the one computed from [ring1]
    (mean 5, red), not the one computed from [ring2] (mean 30, green),
    which it was after the pass for [ring2] ended. *)
Lemma stale_pass_overwrites :
  let s2 := run noProps initialState (updateWhileSampling ++ newPassEnds) in
  let s1 := run noProps s2 stalePassEnds in
  derivedState s2 "P" = derivedFrom "P" ring2 [30; 30; 30]%float /\
  derivedState s1 "P" = derivedFrom "P" ring1 [5; 5; 5]%float /\
  derivedState s1 "P" <> derivedFrom "P" ring2 [30; 30; 30]%float /\
  paintColor <$> layers (mapRef s1) !! fillLayerId "P" = Some "#ff0000" /\
  sources (mapRef s1) !! sourceId "P" = Some ring1.
Proof.
  split; [by vm_compute|]. split; [by vm_compute|]. split; [|split; by vm_compute].
  intros H. apply (f_equal (fun d => paintColor <$> d.2)) in H.
  vm_compute in H. discriminate H.
Qed.

(** *** Sampling (C5) *)

Lemma omap_cons_push (temps : list number) (o : FetchOutcome) (os : list FetchOutcome) :
  temps ++ omap getTemperatureForCoordinate (o :: os)
  = push temps (getTemperatureForCoordinate o) ++ omap getTemperatureForCoordinate os.
Proof.
  cbn. unfold push. destruct (getTemperatureForCoordinate o); [|done].
  by rewrite <- app_assoc.
Qed.

(** Call [k], suspended with [remaining p] still to visit, is given one
    answer per vertex: it sends the remaining requests in order, collects
    the temperatures that are present and runs to its end. *)
Lemma run_pass (props : MapViewProps) (k : nat) (outcomes : list FetchOutcome) :
  forall (p : Pass) (s : State),
    pending s !! k = Some p ->
    length outcomes = S (length (remaining p)) ->
    run props s (FetchSettled k <$> outcomes)
    = afterLoop {| polygonId := polygonId p; coordinates := coordinates p;
                   remaining := [];
                   temperatures :=
                     temperatures p ++ omap getTemperatureForCoordinate outcomes |}
                (setPending (delete k) (fetchAll (remaining p) s)).
Proof.
  induction outcomes as [|o os IH]; intros p s Hk Hlen; [done|].
  rewrite omap_cons_push.
  cbn [fmap list_fmap run fold_left step]. unfold resume. rewrite Hk.
  unfold loopHead. cbn [remaining].
  destruct (remaining p) as [|[lng lat] rest] eqn:Hrest.
  - destruct os; [|done]. cbn. rewrite app_nil_r.
    do 2 f_equal. unfold fetchAll, setPending. destruct s; cbn. by rewrite app_nil_r.
  - cbn [polygonId coordinates temperatures].
    set (p' := {| polygonId := polygonId p; coordinates := coordinates p;
                  remaining := rest;
                  temperatures := push (temperatures p) (getTemperatureForCoordinate o) |}).
    set (s' := setPending <[k:=p']> (fetch lat lng s)).
    fold (run props s' (FetchSettled k <$> os)).
    rewrite (IH p' s').
    + cbn [polygonId coordinates temperatures remaining p'].
      f_equal. unfold s', fetchAll, setPending, fetch. destruct s; cbn.
      f_equal; [apply delete_insert_eq|]. by rewrite <- app_assoc.
    + unfold s'. cbn. apply lookup_insert_eq.
    + cbn in *. lia.
Qed.

Lemma handlePolygonDraw_pass (props : MapViewProps) (s : State) (polygonId : string)
    (coordinates : list Coord) (outcomes : list FetchOutcome) :
  length outcomes = length (slice_0_m1 coordinates) ->
  run props (handlePolygonDraw coordinates polygonId s)
      (FetchSettled (nextPass s) <$> outcomes)
  = afterLoop {| polygonId := polygonId; coordinates := coordinates; remaining := [];
                 temperatures := omap getTemperatureForCoordinate outcomes |}
              (setPending (delete (nextPass s))
                 (fetchAll (slice_0_m1 coordinates) (setNextPass (S (nextPass s)) s))).
Proof.
  intros Hlen. unfold handlePolygonDraw, loopHead. cbn [remaining].
  destruct (slice_0_m1 coordinates) as [|[lng lat] rest] eqn:Hslice.
  - destruct outcomes; [|done]. cbn.
    do 2 f_equal. unfold fetchAll, setPending, setNextPass. destruct s; cbn.
    by rewrite app_nil_r.
  - cbn [MapView.polygonId MapView.coordinates temperatures].
    set (p' := {| polygonId := polygonId; coordinates := coordinates;
                  remaining := rest; temperatures := [] |}).
    set (s' := setPending <[nextPass s:=p']> (fetch lat lng (setNextPass (S (nextPass s)) s))).
    rewrite (run_pass props (nextPass s) outcomes p' s').
    + cbn [MapView.polygonId MapView.coordinates temperatures remaining p' app].
      f_equal. unfold s', fetchAll, setPending, fetch, setNextPass. destruct s; cbn.
      f_equal; [apply delete_insert_eq|]. by rewrite <- app_assoc.
    + unfold s'. cbn. apply lookup_insert_eq.
    + cbn. cbn in Hlen. lia.
Qed.

Lemma present_fmap (outcomes : list FetchOutcome) :
  present (getTemperatureForCoordinate <$> outcomes)
  = omap getTemperatureForCoordinate outcomes.
Proof.
  unfold present. induction outcomes as [|o os IH]; [done|].
  cbn. rewrite IH. by destruct (getTemperatureForCoordinate o).
Qed.

Lemma present_delete_absent (samples : list (option number)) (i : nat) :
  samples !! i = Some None -> present samples = present (delete i samples).
Proof.
  unfold present. revert i.
  induction samples as [|x xs IH]; intros [|i] Hi; try done.
  - cbn in Hi. by injection Hi as ->.
  - cbn in Hi. cbn. by rewrite (IH i Hi).
Qed.

(** C5, amended. A call of [handlePolygonDraw] whose fetches are answered,
    one answer per position of the ring but the last, sends exactly one
    request per such position, in order: for a ring given with a closing
    position, one request per position before it. Positions are not
    compared with each other. Each answer gives the sample of its own
    position: a temperature, or absent when the fetch or the parsing fails
    or the series is missing or empty. No answer makes the call stop or
    throw: it runs to its end (it is no longer suspended) with the present
    samples as its temperatures, so that an absent sample counts as if its
    position were not there. The average it publishes is the aggregate of
    the samples, the arithmetic mean of the present ones or null when there
    is none: 25 for samples 20, absent, 30, and absent when all are absent,
    which is classified as the neutral colour. *)
Theorem sampling_pass (props : MapViewProps) (s : State) (polygonId : string)
    (coordinates : list Coord) (outcomes : list FetchOutcome) :
  length outcomes = length (slice_0_m1 coordinates) ->
  let samples := getTemperatureForCoordinate <$> outcomes in
  let s' := run props (handlePolygonDraw coordinates polygonId s)
                (FetchSettled (nextPass s) <$> outcomes) in
  s' = afterLoop {| polygonId := polygonId; coordinates := coordinates;
                    remaining := []; temperatures := present samples |}
                 (setPending (delete (nextPass s))
                    (fetchAll (slice_0_m1 coordinates)
                       (setNextPass (S (nextPass s)) s))) /\
  fetched s' = fetched s ++ (request <$> slice_0_m1 coordinates) /\
  (forall vs closing, coordinates = vs ++ [closing] ->
     fetched s' = fetched s ++ (request <$> vs)) /\
  pending s' = delete (nextPass s) (pending s) /\
  polygonAvgTemp s' = aggregate samples /\
  (forall i, samples !! i = Some None ->
     present samples = present (delete i samples)) /\
  (getTemperatureForCoordinate FetchRejects = None /\
   getTemperatureForCoordinate JsonRejects = None /\
   getTemperatureForCoordinate (Json NotAnArray) = None /\
   getTemperatureForCoordinate (Json (TemperatureArray [])) = None /\
   forall ts, getTemperatureForCoordinate (Json (TemperatureArray (None :: ts))) = None) /\
  (aggregate [Some 20; None; Some 30]%float = Some 25%float /\
   aggregate [None; None] = None /\
   forall rules, classify (aggregate [None; None]) rules = neutral /\
                 getPolygonColor (Some (present [None; None])) rules = neutral).
Proof.
  intros Hlen samples s'. subst s' samples.
  rewrite (handlePolygonDraw_pass props s polygonId coordinates outcomes Hlen).
  rewrite present_fmap.
  match goal with |- context [afterLoop ?p ?s0] =>
    destruct (afterLoop_control p s0) as (Hp & _ & Hf & Ha) end.
  rewrite Hp, Hf, Ha.
  split; [done|]. split; [done|].
  split; [intros vs closing ->; by rewrite slice_0_m1_snoc|].
  split; [done|].
  split; [unfold aggregate; by rewrite present_fmap|].
  split; [intros i; rewrite <- present_fmap; apply present_delete_absent|].
  split; [done|]. split; [by vm_compute|]. split; [done|]. done.
Qed.

Lemma sampling_pass_witness :
  let outcomes := [answer 20%float; FetchRejects; answer 30%float] in
  let s' := run noProps (handlePolygonDraw ring1 "P" initialState)
                (FetchSettled 0 <$> outcomes) in
  length outcomes = length (slice_0_m1 ring1) /\
  fetched s' = [(0, 0); (0, 2); (2, 0)]%float /\
  polygonAvgTemp s' = Some 25%float.
Proof.
  split; [reflexivity|].
  pose proof (sampling_pass noProps initialState "P" ring1
                [answer 20%float; FetchRejects; answer 30%float] eq_refl) as H.
  cbv zeta in H. destruct H as (_ & Hf & _ & _ & Ha & _).
  split; [exact Hf|exact Ha].
Defined.

(** C5, as stated, fails: the positions are not compared with each other
    and the last one is left out. Of the three distinct positions of
    [triangle], which has no closing duplicate, only the first two are
    requested: the call ends after two answers and publishes their mean.
    In [stutter], a closed ring of three distinct positions whose first
    position comes twice, four requests are sent, two of them for that
    position. *)
Lemma last_position_is_not_sampled :
  let s := run noProps (handlePolygonDraw triangle "P" initialState)
               (FetchSettled 0 <$> [answer 20%float; answer 30%float]) in
  let s' := run noProps (handlePolygonDraw stutter "P" initialState)
                (FetchSettled 0 <$> [answer 20%float; answer 20%float;
                                     answer 20%float; answer 20%float]) in
  fetched s = request <$> [(0, 0); (3, 0)]%float /\
  fetched s <> request <$> triangle /\
  pending s = ∅ /\
  polygonAvgTemp s = Some 25%float /\
  fetched s' = request <$> [(0, 0); (0, 0); (3, 0); (0, 3)]%float /\
  pending s' = ∅.
Proof.
  split; [by vm_compute|]. split; [|repeat split; by vm_compute].
  intros H. apply (f_equal length) in H. vm_compute in H. discriminate H.
Qed.

(** *** Geometry is not validated (C7) *)

Lemma truthy_nonempty (i : string) : i <> "" -> truthy (Some i) = Some i.
Proof. by destruct i. Qed.

(** C7, amended. No create or update event is rejected for its geometry.
    For a polygon feature with a non-empty id whose first ring has a first
    position, followed by any positions and a last one, the listener
    starts a sampling pass on the ring without its last position, however
    few distinct positions the ring has. *)
Theorem draw_event_starts_pass (props : MapViewProps) (s : State) (i : string)
    (ring : list Coord) (rings : list (list Coord)) (c : Coord) (rest : list Coord) :
  i <> "" ->
  slice_0_m1 ring = c :: rest ->
  let feature := {| id := Some i; geometry := Polygon (ring :: rings) |} in
  let p := {| polygonId := i; coordinates := ring; remaining := rest;
              temperatures := [] |} in
  passStarted s (step props s (DrawCreate [feature])) c p /\
  passStarted s (step props s (DrawUpdate [feature])) c p.
Proof.
  intros Hi Hslice feature p.
  assert (Hdraw : passStarted s (handlePolygonDraw ring i s) c p).
  { unfold handlePolygonDraw, loopHead. cbn [remaining]. rewrite Hslice.
    destruct c as [lng lat]. by repeat split. }
  split; [unfold step, onDrawCreate|unfold step, onDrawUpdate; cbn [fold_left]];
    subst feature; cbn [geometry id]; by rewrite (truthy_nonempty i Hi).
Qed.

Lemma draw_event_starts_pass_witness :
  let feature := polygonFeature "P" segment in
  let p := {| polygonId := "P"; coordinates := segment; remaining := [(2, 2)%float];
              temperatures := [] |} in
  passStarted initialState (step noProps initialState (DrawCreate [feature])) (1, 1)%float p /\
  passStarted initialState (step noProps initialState (DrawUpdate [feature])) (1, 1)%float p.
Proof.
  refine (draw_event_starts_pass noProps initialState "P" segment [] (1, 1)%float
            [(2, 2)%float] _ _).
  - discriminate.
  - reflexivity.
Defined.

(** C7, as stated, fails: a create event (or an update event) with a ring
    of two distinct positions is not rejected. A request is sent for its
    first position, and once the two answers are in, the polygon has an
    entry in [polygonData], a source and a fill layer. *)
Lemma degenerate_ring_is_sampled :
  let create := DrawCreate [polygonFeature "P" segment] in
  let update := DrawUpdate [polygonFeature "P" segment] in
  let answers := [FetchSettled 0 (answer 20%float); FetchSettled 0 (answer 20%float)] in
  fetched (step noProps initialState create) = [(1, 1)%float] /\
  fetched (step noProps initialState update) = [(1, 1)%float] /\
  derivedState (run noProps initialState (create :: answers)) "P"
    = derivedFrom "P" segment [20; 20]%float /\
  derivedState (run noProps initialState (update :: answers)) "P"
    = derivedFrom "P" segment [20; 20]%float /\
  polygonData (run noProps initialState (create :: answers)) !! "P"
    = Some {| avgTemp := 20%float; centroid := (1.5, 1.5)%float |}.
Proof. repeat split; by vm_compute. Qed.

(** *** The colour of a polygon (C10) *)

Lemma dashboardRun_mapView (d : Dashboard) (evs : list Event) :
  mapView (dashboardRun d evs) = run noProps (mapView d) evs.
Proof.
  revert d. induction evs as [|ev evs IH]; intros d; [done|].
  change (dashboardRun d (ev :: evs)) with (dashboardRun (dashboardStep d ev) evs).
  rewrite IH. by destruct ev.
Qed.

(** The built-in palette. *)
Lemma getTemperatureColor_builtIn (a : number) : builtIn a (getTemperatureColor a).
Proof.
  unfold builtIn, getTemperatureColor. split; [|split].
  - by intros ->.
  - intros H10 H25. by rewrite (ge10_not_lt10 a H10), H10, H25.
  - intros H25. destruct (ge25_not_lt a H25) as [-> ->].
    by rewrite andb_false_r.
Qed.

Lemma aggregate_present (samples : list (option number)) (a : number) :
  aggregate samples = Some a ->
  present samples <> [] /\ a = average (present samples).
Proof.
  unfold aggregate. destruct (present samples) as [|t ts]; [done|].
  rewrite <- average_mean. intros [= <-]. done.
Qed.

(** C10. [getTemperatureColor] gives [#ff0000] below 10, [#0000ff] from 10
    on and below 25, and [#00ff00] from 25 on. When a polygon is drawn or
    updated and its sampling gives at least one present value, the fill
    layer of the polygon, once the last answer is in, has the colour of the
    built-in palette for the arithmetic mean of the present values. The
    threshold rules of the data sources and the props of the map view are
    not read: two dashboards with the same map view state and any data
    sources and props have the same map view state, layers included, after
    the same events. *)
Theorem fill_color_from_built_in_palette :
  (forall avg : number,
     ((avg <? 10)%float = true -> getTemperatureColor avg = "#ff0000") /\
     ((10 <=? avg)%float = true -> (avg <? 25)%float = true ->
        getTemperatureColor avg = "#0000ff") /\
     ((25 <=? avg)%float = true -> getTemperatureColor avg = "#00ff00")) /\
  (forall props s i ring rings outcomes a draw,
     let feature := {| id := Some i; geometry := Polygon (ring :: rings) |} in
     i <> "" ->
     draw = DrawCreate [feature] \/ draw = DrawUpdate [feature] ->
     length outcomes = length (slice_0_m1 ring) ->
     aggregate (getTemperatureForCoordinate <$> outcomes) = Some a ->
     let s' := run props (step props s draw) (FetchSettled (nextPass s) <$> outcomes) in
     exists colour,
       layers (mapRef s') !! fillLayerId i
       = Some {| layerType := Fill; source := sourceId i; paintColor := colour |} /\
       builtIn a colour) /\
  (forall d1 d2 evs,
     mapView d1 = mapView d2 ->
     mapView (dashboardRun d1 evs) = mapView (dashboardRun d2 evs)).
Proof.
  split; [|split].
  - intros avg. apply getTemperatureColor_builtIn.
  - intros props s i ring rings outcomes a draw feature Hi Hdraw Hlen Ha s'.
    assert (Hstep : step props s draw = handlePolygonDraw ring i s).
    { destruct Hdraw as [-> | ->];
        [unfold step, onDrawCreate|unfold step, onDrawUpdate; cbn [fold_left]];
        subst feature; cbn [geometry id]; by rewrite (truthy_nonempty i Hi). }
    subst s'. rewrite Hstep.
    rewrite (handlePolygonDraw_pass props s i ring outcomes Hlen).
    destruct (aggregate_present _ a Ha) as [Hne ->].
    rewrite present_fmap in Hne. rewrite present_fmap.
    exists (getTemperatureColor (average (omap getTemperatureForCoordinate outcomes))).
    split; [|apply getTemperatureColor_builtIn].
    match goal with |- context [afterLoop ?p ?s0] =>
      pose proof (afterLoop_derivedState p s0 Hne) as H end.
    apply (f_equal snd) in H. exact H.
  - intros d1 d2 evs Heq. by rewrite !dashboardRun_mapView, Heq.
Qed.

Lemma fill_color_from_built_in_palette_witness :
  let hot := [answer 30%float; FetchRejects; answer 30%float] in
  let s' := run noProps (step noProps initialState (DrawCreate [polygonFeature "P" ring1]))
                (FetchSettled 0 <$> hot) in
  aggregate (getTemperatureForCoordinate <$> hot) = Some 30%float /\
  layers (mapRef s') !! fillLayerId "P"
  = Some {| layerType := Fill; source := sourceId "P"; paintColor := "#00ff00" |}.
Proof.
  assert (Ha : aggregate (getTemperatureForCoordinate
                            <$> [answer 30%float; FetchRejects; answer 30%float])
               = Some 30%float) by (by vm_compute).
  split; [exact Ha|].
  destruct fill_color_from_built_in_palette as (_ & Hrender & _).
  destruct (Hrender noProps initialState "P" ring1 []
              [answer 30%float; FetchRejects; answer 30%float] 30%float
              (DrawCreate [polygonFeature "P" ring1])
              ltac:(discriminate) (or_introl eq_refl) eq_refl Ha)
    as (colour & Hlayer & _ & _ & Hhot).
  rewrite (Hhot eq_refl) in Hlayer. exact Hlayer.
Defined.

End MapViewFacts.

(** ** More properties of the timeline slider *)

Module TimelineMoreFacts.

Import TimelineSlider TimelineSpec TimelineView TimelineMoreSpec TimelineFacts.
Local Open Scope Z_scope.

(** *** Positions on the track *)

Lemma round_trip_percent (now : Date) (v : Z) :
  percentToValue now (valueToPercent now v) = v.
Proof.
  unfold percentToValue, valueToPercent.
  change (totalHours now - 1) with 719.
  assert (H : ((inject_Z v / inject_Z 719 * 100 / 100) * inject_Z 719 == inject_Z v)%Q)
    by (field; discriminate).
  unfold Math_round. rewrite H. apply Qfloor_half.
Qed.

(** X1. The position at which a handle is drawn maps back to its value:
    [percentToValue (valueToPercent v)] is [v], for every integer [v]. *)
Theorem percentToValue_valueToPercent (now : Date) (v : Z) :
  percentToValue now (valueToPercent now v) = v.
Proof.
  unfold percentToValue, valueToPercent, Math_round.
  change (totalHours now - 1) with 719.
  assert (H : ((inject_Z v / inject_Z 719 * 100 / 100) * inject_Z 719 == inject_Z v)%Q)
    by (field; discriminate).
  rewrite H. unfold Qfloor, Qplus, inject_Z. cbn.
  symmetry. apply (Z.div_unique _ _ _ 1); lia.
Qed.

Lemma percentToValue_le (now : Date) (p1 p2 : Q) :
  (p1 <= p2)%Q -> percentToValue now p1 <= percentToValue now p2.
Proof.
  intros Hp. unfold percentToValue, Math_round.
  apply Qfloor_resp_le, Qplus_le_l.
  apply Qmult_le_compat_r; [|done].
  unfold Qdiv. by apply Qmult_le_compat_r.
Qed.

(** The index of a percentage, clamped as in [getMousePosition]. *)
Lemma clamped_le (now : Date) (p1 p2 : Q) :
  (p1 <= p2)%Q ->
  percentToValue now (Qmax 0 (Qmin 100 p1)) <= percentToValue now (Qmax 0 (Qmin 100 p2)).
Proof.
  intros Hp. by apply percentToValue_le, Q.max_le_compat_l, Q.min_le_compat_l.
Qed.

Lemma clamped_eq (now : Date) (p1 p2 : Q) :
  (p1 == p2)%Q ->
  percentToValue now (Qmax 0 (Qmin 100 p1)) = percentToValue now (Qmax 0 (Qmin 100 p2)).
Proof.
  intros Hp. apply Z.le_antisymm; apply clamped_le; rewrite Hp; apply Qle_refl.
Qed.

Lemma clamped_inside (now : Date) (p : Q) :
  (0 <= p)%Q -> (p <= 100)%Q ->
  percentToValue now (Qmax 0 (Qmin 100 p)) = percentToValue now p.
Proof.
  intros H0 H100.
  apply Z.le_antisymm; apply percentToValue_le.
  - rewrite (Q.min_r _ _ H100), (Q.max_r _ _ H0). apply Qle_refl.
  - rewrite (Q.min_r _ _ H100), (Q.max_r _ _ H0). apply Qle_refl.
Qed.

Lemma valueToPercent_range (now : Date) (v : Z) :
  0 <= v <= 719 -> (0 <= valueToPercent now v)%Q /\ (valueToPercent now v <= 100)%Q.
Proof.
  intros Hv. unfold valueToPercent. change (totalHours now - 1) with 719.
  assert (H0 : (inject_Z 0 <= inject_Z v)%Q) by (rewrite <- Zle_Qle; lia).
  assert (H1 : (inject_Z v <= inject_Z 719)%Q) by (rewrite <- Zle_Qle; lia).
  change (inject_Z 0) with 0%Q in H0.
  split.
  - apply Qmult_le_0_compat; [|done].
    apply Qle_shift_div_l; [done|]. by rewrite Qmult_0_l.
  - rewrite <- (Qmult_1_l 100) at 2. apply Qmult_le_compat_r; [|done].
    apply Qle_shift_div_r; [done|]. by rewrite Qmult_1_l.
Qed.

(** X2. Over a slider of positive width, the index read from the pointer
    does not decrease when the pointer moves to the right; it is 0 at the
    left edge and to its left, 719 at the right edge and to its right, and
    it is [v] at the position where the handle of value [v] is drawn. *)
Theorem getMousePosition_track (now : Date) (r : DOMRect) :
  (0 < width r)%Q ->
  (forall x1 x2, (x1 <= x2)%Q ->
     getMousePosition now (pointerAt r x1) <= getMousePosition now (pointerAt r x2)) /\
  (forall x, (x <= left r)%Q -> getMousePosition now (pointerAt r x) = 0) /\
  (forall x, (left r + width r <= x)%Q -> getMousePosition now (pointerAt r x) = 719) /\
  (forall v, 0 <= v <= 719 ->
     getMousePosition now
       (pointerAt r (left r + width r * (valueToPercent now v / 100))) = v).
Proof.
  intros Hw.
  assert (Hlo : getMousePosition now (pointerAt r (left r)) = 0).
  { unfold getMousePosition, pointerAt. cbn [sliderRect clientX].
    rewrite (clamped_eq now _ 0); [reflexivity|]. field. lra. }
  assert (Hhi : getMousePosition now (pointerAt r (left r + width r)) = 719).
  { unfold getMousePosition, pointerAt. cbn [sliderRect clientX].
    rewrite (clamped_eq now _ 100); [reflexivity|]. field. lra. }
  assert (Hmono : forall x1 x2, (x1 <= x2)%Q ->
     getMousePosition now (pointerAt r x1) <= getMousePosition now (pointerAt r x2)).
  { intros x1 x2 Hx. unfold getMousePosition, pointerAt. cbn [sliderRect clientX].
    apply clamped_le.
    apply Qmult_le_compat_r; [|done].
    unfold Qdiv. apply Qmult_le_compat_r.
    - unfold Qminus. by apply Qplus_le_l.
    - apply Qlt_le_weak, Qinv_lt_0_compat, Hw. }
  split; [exact Hmono|]. split; [|split].
  - intros x Hx. pose proof (Hmono x (left r) Hx).
    pose proof (getMousePosition_range now (pointerAt r x)). lia.
  - intros x Hx. pose proof (Hmono (left r + width r)%Q x Hx).
    pose proof (getMousePosition_range now (pointerAt r x)). lia.
  - intros v Hv. unfold getMousePosition, pointerAt. cbn [sliderRect clientX].
    destruct (valueToPercent_range now v Hv) as [Hp0 Hp100].
    rewrite (clamped_eq now _ (valueToPercent now v)) by (field; lra).
    rewrite clamped_inside by done.
    apply round_trip_percent.
Qed.

Lemma getMousePosition_track_witness :
  let r := {| left := 0; width := 719 |} in
  (0 < width r)%Q /\
  getMousePosition 0 (pointerAt r (-5)) = 0 /\
  getMousePosition 0 (pointerAt r 800) = 719.
Proof.
  assert (Hw : (0 < width {| left := 0; width := 719 |})%Q) by reflexivity.
  destruct (getMousePosition_track 0 {| left := 0; width := 719 |} Hw)
    as (_ & Hlo & Hhi & _).
  split; [exact Hw|]. split.
  - apply Hlo. by vm_compute.
  - apply Hhi. by vm_compute.
Defined.

(** *** The slots *)

Lemma setHours0_addDays (d : Date) (n : Z) :
  setHours0 (addDays d n) = addDays (setHours0 d) n.
Proof.
  unfold setHours0, addDays.
  rewrite Z.div_add by (by vm_compute). lia.
Qed.

Lemma slotTime_today (now : Date) (i : Z) :
  slotTime now i = setHours0 now + (i - todayIndex) * msPerHour.
Proof.
  unfold slotTime. rewrite setHours0_addDays.
  unfold addDays, todayIndex, msPerDay. lia.
Qed.

Lemma getHours_slotTime (now : Date) (i : Z) : getHours (slotTime now i) = i mod 24.
Proof.
  rewrite slotTime_today. unfold getHours, setHours0, todayIndex, msPerDay.
  replace (now / (24 * msPerHour) * (24 * msPerHour) + (i - 15 * 24) * msPerHour)
    with ((now / (24 * msPerHour) * 24 + (i - 15 * 24)) * msPerHour) by lia.
  rewrite Z.div_mul by (by vm_compute).
  replace (now / (24 * msPerHour) * 24 + (i - 15 * 24))
    with (i + (now / (24 * msPerHour) - 15) * 24) by lia.
  by rewrite Z.mod_add by lia.
Qed.

(** X3. [generateTimelineData] makes 720 slots. Slot [i] has index [i];
    its time is [i - 360] hours after the local midnight of the day of the
    mount, so slot 360 is that midnight and slot [i] is at hour
    [i mod 24] of its day. There is no slot below 0 or above 719. *)
Theorem timelineData_slots (now : Date) :
  length (timelineData now) = 720%nat /\
  (forall i, 0 <= i <= 719 ->
     slot now i = Some {| index := i;
                          date := setHours0 now + (i - todayIndex) * msPerHour |} /\
     getHours (setHours0 now + (i - todayIndex) * msPerHour) = i mod 24) /\
  slot now todayIndex = Some {| index := todayIndex; date := setHours0 now |} /\
  (forall i, i < 0 \/ 719 < i -> slot now i = None).
Proof.
  split; [reflexivity|]. split; [|split].
  - intros i Hi. rewrite slot_in_range by done.
    rewrite <- slotTime_today. split; [done|apply getHours_slotTime].
  - rewrite slot_in_range by (unfold todayIndex; lia).
    rewrite slotTime_today. do 2 f_equal. lia.
  - intros i [Hi|Hi]; unfold slot.
    + by destruct (Z.ltb_spec i 0) as [_|?]; [|lia].
    + destruct (Z.ltb_spec i 0) as [?|_]; [lia|].
      apply lookup_ge_None_2.
      change (length (timelineData now)) with 720%nat. lia.
Qed.

(** *** The drag state *)

(** X4. Pressing a handle starts a drag and releasing the button ends it;
    neither moves a handle or changes the mode, so neither notifies the
    parent, and no other event starts or ends a drag. While no drag is in
    progress, moves of the pointer change nothing; while a drag is in
    progress, clicks on the track change nothing. *)
Theorem drag_state_machine (now : Date) (s : State) :
  (forall h x,
     let s' := step now s (MouseDown h x) in
     dragState s' = Some {| type := h; startX := x |} /\
     deps s' = deps s /\ effects now s s' = [] /\
     forall clicks, run now s' (SliderClick <$> clicks) = s') /\
  (let s' := step now s MouseUp in
   dragState s' = None /\ deps s' = deps s /\ effects now s s' = [] /\
   forall moves, run now s' (MouseMove <$> moves) = s') /\
  (forall ev, (forall h x, ev <> MouseDown h x) -> ev <> MouseUp ->
     dragState (step now s ev) = dragState s).
Proof.
  split; [|split].
  - intros h x s'. split; [done|]. split; [done|]. split.
    + unfold effects. by rewrite decide_True.
    + intros clicks. induction clicks as [|e clicks IH]; [done|].
      cbn [fmap list_fmap run fold_left]. exact IH.
  - intros s'. split; [done|]. split; [done|]. split.
    + unfold effects. by rewrite decide_True.
    + intros moves. induction moves as [|e moves IH]; [done|].
      cbn [fmap list_fmap run fold_left]. exact IH.
  - intros ev Hdown Hup. destruct s as [sh rs re m d].
    destruct ev as [h x|e| |e| | |clock| ]; cbn;
      unfold handleMouseMove, handleSliderClick, goToNow, goToToday; cbn.
    + by destruct (Hdown h x).
    + destruct d as [d|]; [|done]. destruct m; [done|]. by destruct (type d).
    + done.
    + destruct d; [done|]. destruct m; [done|]. by destruct (_ <? _).
    + done.
    + done.
    + by destruct m.
    + by destruct m.
Qed.

(** *** The handles of the other mode *)

(** X5. No event moves a handle of the mode that is not active: in single
    mode the start and end of the range stay where they are, and in range
    mode the single handle stays where it is, whatever the event. *)
Theorem inactive_handles_stay (now : Date) (s : State) (ev : Event) :
  match mode s with
  | ModeSingle =>
      rangeStart (step now s ev) = rangeStart s /\
      rangeEnd (step now s ev) = rangeEnd s
  | ModeRange => singleHandle (step now s ev) = singleHandle s
  end.
Proof.
  destruct ev as [h x|e| |e| | |clock| ]; cbn;
    unfold handleMouseMove, handleSliderClick, goToNow, goToToday;
    destruct (mode s) eqn:Hm; try done.
  - by destruct (dragState s).
  - destruct (dragState s) as [d|]; [|done]. by destruct (type d).
  - by destruct (dragState s).
  - destruct (dragState s); [done|]. by destruct (_ <? _).
Qed.

(** *** The shortcuts *)

(** X6. In a time zone of fixed offset (dates are local times): after
    "Today" the window notified to the parent starts at the local midnight
    of the day of the mount; after "Go to Now" it starts at the hour of the
    clock on the day of the mount, which is the start of the current hour
    when the clock is still on that day. In single mode the window is one
    hour long, in range mode 24 hours. *)
Theorem shortcut_windows (now clock : Date) (s : State) :
  let window (start : Date) :=
    Some match mode s with
         | ModeSingle => {| startTime := start; endTime := start + msPerHour;
                            changeMode := ModeSingle |}
         | ModeRange => {| startTime := start; endTime := start + 24 * msPerHour;
                           changeMode := ModeRange |}
         end in
  notifyParent now (step now s ClickToday) = window (setHours0 now) /\
  notifyParent now (step now s (ClickGoToNow clock))
    = window (setHours0 now + getHours clock * msPerHour) /\
  (clock / msPerDay = now / msPerDay ->
     setHours0 now + getHours clock * msPerHour = clock / msPerHour * msPerHour).
Proof.
  intros window. subst window. cbv beta.
  pose proof (getHours_range clock) as Hh.
  split; [|split].
  - destruct s as [sh rs re [] d]; cbn; unfold notifyParent, todayIndex; cbn.
    + rewrite slot_in_range by lia. cbn. rewrite slotTime_today.
      unfold addHours, todayIndex. do 2 f_equal; unfold msPerHour; lia.
    + rewrite !slot_in_range by lia. cbn. rewrite !slotTime_today.
      unfold todayIndex. do 2 f_equal; unfold msPerHour; lia.
  - destruct s as [sh rs re [] d]; cbn; unfold notifyParent, todayIndex; cbn.
    + rewrite slot_in_range by lia. cbn. rewrite slotTime_today.
      unfold addHours, todayIndex. do 2 f_equal; unfold msPerHour; lia.
    + rewrite !slot_in_range by lia. cbn. rewrite !slotTime_today.
      unfold todayIndex. do 2 f_equal; unfold msPerHour; lia.
  - intros Hday. unfold setHours0, getHours. rewrite <- Hday.
    unfold msPerDay. replace (24 * msPerHour) with (msPerHour * 24) by lia.
    rewrite <- (Z.div_div clock msPerHour 24) by (by vm_compute).
    pose proof (Z.div_mod (clock / msPerHour) 24 ltac:(lia)) as E.
    set (q := clock / msPerHour) in *. set (a := q / 24) in *. set (b := q mod 24) in *.
    unfold msPerHour. lia.
Qed.

(** *** Marks and titles *)

Lemma generateMarks_loop_days (now : Date) (toShortDate : Date -> string) (n : nat) :
  forall (d fuel : nat), (d + n = 30)%nat -> (n < fuel)%nat ->
    generateMarks_loop now toShortDate fuel (24 * Z.of_nat d)
    = dayMark now toShortDate <$> seq d n.
Proof.
  induction n as [|n IH]; intros d fuel Hd Hfuel.
  - destruct fuel as [|fuel]; [lia|]. cbn [generateMarks_loop seq fmap list_fmap].
    rewrite totalHours_720.
    by destruct (Z.ltb_spec (24 * Z.of_nat d) 720) as [?|_]; [lia|].
  - destruct fuel as [|fuel]; [lia|]. cbn [generateMarks_loop seq fmap list_fmap].
    rewrite totalHours_720.
    destruct (Z.ltb_spec (24 * Z.of_nat d) 720) as [_|?]; [|lia].
    rewrite slot_in_range by lia. cbn [date].
    replace (24 * Z.of_nat d + 24) with (24 * Z.of_nat (S d)) by lia.
    rewrite (IH (S d) fuel) by lia.
    f_equal. unfold dayMark. f_equal.
    + f_equal. rewrite slotTime_today. unfold addDays, todayIndex, msPerDay. lia.
    + apply bool_decide_ext. unfold todayIndex. lia.
Qed.

(** X7. [generateMarks] makes 30 marks, one per day of the window and in
    order: the mark of day [d] is at index [24 d], its label is the date of
    the local midnight [d - 15] days from the day of the mount, and it is
    the mark of today exactly for [d = 15], at index 360. The loop ends by
    its own test: more turns give the same marks. *)
Theorem generateMarks_days (now : Date) (toShortDate : Date -> string) :
  generateMarks now toShortDate = dayMark now toShortDate <$> seq 0 30 /\
  (forall fuel, (30 < fuel)%nat ->
     generateMarks_loop now toShortDate fuel 0 = generateMarks now toShortDate) /\
  (forall m, m ∈ generateMarks now toShortDate ->
     (isToday m = true <-> markIndex m = todayIndex)).
Proof.
  assert (H : forall fuel, (30 < fuel)%nat ->
            generateMarks_loop now toShortDate fuel 0 = dayMark now toShortDate <$> seq 0 30).
  { intros fuel Hfuel.
    exact (generateMarks_loop_days now toShortDate 30 0 fuel eq_refl Hfuel). }
  assert (Hgen : generateMarks now toShortDate = dayMark now toShortDate <$> seq 0 30).
  { unfold generateMarks. rewrite totalHours_720. apply H. lia. }
  split; [exact Hgen|]. split.
  - intros fuel Hfuel. by rewrite Hgen, H.
  - intros m. rewrite Hgen. intros (d & -> & _)%list_elem_of_fmap.
    unfold dayMark, todayIndex. cbn. rewrite bool_decide_eq_true. lia.
Qed.

(** X8. The title of a handle, in a time zone of fixed offset (dates are
    local times): for an index in range it is the date of the slot, a
    space, the hour [index mod 24] of the slot in decimal and [":00"]; for
    an index out of range it is empty. *)
Theorem formatDateTime_hour (now : Date) (toLocaleDateString : Date -> string) (i : Z) :
  (0 <= i <= 719 ->
     formatDateTime now toLocaleDateString i
     = toLocaleDateString (setHours0 now + (i - todayIndex) * msPerHour)
       +:+ " " +:+ pretty (i mod 24) +:+ ":00") /\
  (i < 0 \/ 719 < i -> formatDateTime now toLocaleDateString i = "").
Proof.
  unfold formatDateTime. split.
  - intros Hi. rewrite slot_in_range by done. cbn [date].
    by rewrite getHours_slotTime, slotTime_today.
  - intros [Hi|Hi]; unfold slot.
    + by destruct (Z.ltb_spec i 0) as [_|?]; [|lia].
    + destruct (Z.ltb_spec i 0) as [?|_]; [lia|].
      rewrite lookup_ge_None_2; [done|].
      change (length (timelineData now)) with 720%nat. lia.
Qed.

End TimelineMoreFacts.

(** ** Properties of the slider mounted in the app *)

Module AppFacts.

Import TimelineSlider TimelineSpec TimelineFacts App AppSpec.
Local Open Scope Z_scope.

Lemma notifyParent_deps (now : Date) (s s' : TimelineSlider.State) :
  deps s = deps s' -> notifyParent now s = notifyParent now s'.
Proof.
  unfold deps, notifyParent. intros H. injection H as -> -> -> ->. done.
Qed.

Lemma notifyParent_ok (now : Date) (s : TimelineSlider.State) :
  handles_ok s -> is_Some (notifyParent now s).
Proof.
  intros (Hs & Hr & He). unfold notifyParent.
  destruct (mode s); rewrite !slot_in_range by lia; by eexists.
Qed.

Lemma handleTimeChange_stores (c : TimeChange) (a : State) :
  timelineState (handleTimeChange (startTime c) (endTime c) (changeMode c) a) = c.
Proof.
  unfold handleTimeChange. cbn.
  destruct (Z.eqb_spec (startTime (timelineState a)) (startTime c)) as [H1|]; cbn;
    [|by destruct c].
  destruct (Z.eqb_spec (endTime (timelineState a)) (endTime c)) as [H2|]; cbn;
    [|by destruct c].
  case_bool_decide as H3; [|by destruct c].
  destruct (timelineState a), c. cbn in *. by subst.
Qed.

Lemma mount_in_sync (now c1 c2 c3 : Date) : in_sync now (mount now c1 c2 c3).
Proof.
  unfold in_sync, mount. cbn [slider app].
  pose proof (initialState_ok c1) as Hok. split; [done|].
  destruct (notifyParent_ok now _ Hok) as [c Hc]. rewrite Hc. cbn [deliver].
  by rewrite handleTimeChange_stores.
Qed.

Lemma systemStep_in_sync (now : Date) (sys : System) (ev : Event) :
  in_sync now sys -> in_sync now (systemStep now sys ev).
Proof.
  intros (Hok & Hn & Hl). unfold in_sync, systemStep. cbn [slider app].
  pose proof (step_ok now _ ev Hok) as Hok'. split; [done|].
  unfold effects. case_decide as Hdeps; cbn [fold_left].
  - split; [|done]. by rewrite <- (notifyParent_deps now _ _ Hdeps).
  - destruct (notifyParent_ok now _ Hok') as [c Hc]. rewrite Hc. cbn [deliver].
    by rewrite handleTimeChange_stores.
Qed.

(** X9. From the first render on and after every event, the
    [timelineState] of the app is the window of the slider (start and end
    of the selected slot or range, and the mode): the effect of the slider
    runs whenever the window changes. The flag [isUpdatingPolygons] is set
    by the first notification and is never reset. The track has a positive
    width whenever the pointer is read. *)
Theorem app_follows_slider (now sliderClock appClock appClock' : Date)
    (evs : list Event) :
  Forall laidOut evs ->
  let sys := systemRun now (mount now sliderClock appClock appClock') evs in
  notifyParent now (slider sys) = Some (timelineState (app sys)) /\
  slider sys = run now (TimelineSlider.initialState sliderClock) evs /\
  isUpdatingPolygons (app sys) = true.
Proof.
  intros _ sys. subst sys.
  assert (H : forall sys0, in_sync now sys0 ->
            in_sync now (systemRun now sys0 evs) /\
            slider (systemRun now sys0 evs) = run now (slider sys0) evs).
  { induction evs as [|ev evs IH]; intros sys0 H0; [done|].
    cbn [systemRun run fold_left].
    destruct (IH (systemStep now sys0 ev) (systemStep_in_sync now sys0 ev H0)) as [H1 H2].
    split; [exact H1|]. exact H2. }
  destruct (H _ (mount_in_sync now sliderClock appClock appClock')) as [(_ & Hn & Hl) Hs].
  done.
Qed.

Lemma app_follows_slider_witness :
  let evs := [SliderClick click361; ClickRangeSelection; ClickToday] in
  let sys := systemRun 0 (mount 0 0 0 0) evs in
  Forall laidOut evs /\
  timelineState (app sys)
  = {| startTime := slotTime 0 360; endTime := slotTime 0 384; changeMode := ModeRange |} /\
  isUpdatingPolygons (app sys) = true.
Proof.
  assert (Hevs : Forall laidOut [SliderClick click361; ClickRangeSelection; ClickToday])
    by (repeat constructor).
  destruct (app_follows_slider 0 0 0 0
              [SliderClick click361; ClickRangeSelection; ClickToday] Hevs)
    as (Hn & _ & Hl).
  split; [exact Hevs|]. split; [|exact Hl].
  apply (inj Some). rewrite <- Hn. by vm_compute.
Defined.

End AppFacts.

(** ** More properties of the map view *)

Module MapViewMoreFacts.

Import MapView MapViewSpec MapViewMore MapViewMoreSpec MapViewFacts.

(** *** Deleting polygons *)

Lemma lookup_fold_delete `{Countable K} {A} (ks : list K) (m : gmap K A) (q : K) :
  fold_left (fun m k => delete k m) ks m !! q
  = if decide (q ∈ ks) then None else m !! q.
Proof.
  revert m. induction ks as [|k ks IH]; intros m; cbn [fold_left].
  - rewrite decide_False; [done|]. apply not_elem_of_nil.
  - rewrite IH. destruct (decide (q ∈ ks)) as [Hin|Hnin].
    + rewrite decide_True; [done|]. apply elem_of_cons. by right.
    + destruct (decide (q = k)) as [->|Hne].
      * rewrite decide_True; [|apply elem_of_cons; by left]. apply lookup_delete_eq.
      * rewrite decide_False; [by apply lookup_delete_ne|].
        intros [?|?]%elem_of_cons; done.
Qed.

Lemma fold_delete_idemp `{Countable K} {A} (ks : list K) (m : gmap K A) :
  fold_left (fun m k => delete k m) ks (fold_left (fun m k => delete k m) ks m)
  = fold_left (fun m k => delete k m) ks m.
Proof.
  apply map_eq. intros q. rewrite !lookup_fold_delete.
  by destruct (decide (q ∈ ks)).
Qed.

(** The keys of the layers of a list of polygons. *)
Lemma fold_delete_layers (ids : list string) (m : gmap string Layer) :
  fold_left (fun m i => delete (outlineLayerId i) (delete (fillLayerId i) m)) ids m
  = fold_left (fun m k => delete k m)
      (ids ≫= fun i => [fillLayerId i; outlineLayerId i]) m.
Proof.
  revert m. induction ids as [|i ids IH]; intros m; [done|].
  cbn [fold_left mbind list_bind app]. apply IH.
Qed.

Lemma fold_delete_sources (ids : list string) (m : gmap string (list Coord)) :
  fold_left (fun m i => delete (sourceId i) m) ids m
  = fold_left (fun m k => delete k m) (sourceId <$> ids) m.
Proof.
  revert m. induction ids as [|i ids IH]; intros m; [done|].
  cbn [fold_left fmap list_fmap]. apply IH.
Qed.

(** A delete event, field by field. *)
Lemma onDrawDelete_fields (features : list Feature) (s : State) :
  onDrawDelete features s
  = {| polygonAvgTemp := polygonAvgTemp s; polygonCentroid := polygonCentroid s;
       polygonData := fold_left (fun m k => delete k m) (deletedIds features) (polygonData s);
       polygonTempMarkersRef :=
         fold_left (fun m k => delete k m) (deletedIds features) (polygonTempMarkersRef s);
       mapRef :=
         {| sources := fold_left (fun m k => delete k m)
                         (sourceId <$> deletedIds features) (sources (mapRef s));
            layers := fold_left (fun m k => delete k m)
                        (deletedIds features ≫= fun i => [fillLayerId i; outlineLayerId i])
                        (layers (mapRef s)) |};
       pending := pending s; nextPass := nextPass s; fetched := fetched s |}.
Proof.
  rewrite <- fold_delete_layers, <- fold_delete_sources.
  unfold onDrawDelete, deletedIds.
  revert s. induction features as [|f features IH]; intros s.
  - by destruct s as [? ? ? ? [] ? ? ?].
  - cbn [fold_left omap list_omap].
    destruct (truthy (id f)) as [i|]; [|apply IH].
    rewrite IH. by destruct s as [? ? ? ? [] ? ? ?].
Qed.

Lemma sourceId_inj (i j : string) : sourceId i = sourceId j -> i = j.
Proof. unfold sourceId. simpl. intros H. by simplify_eq. Qed.

Lemma fillLayerId_inj (i j : string) : fillLayerId i = fillLayerId j -> i = j.
Proof. unfold fillLayerId. simpl. intros H. by simplify_eq. Qed.

Lemma elem_of_deletedIds (features : list Feature) (i : string) :
  i ∈ deletedIds features <-> exists f, f ∈ features /\ truthy (id f) = Some i.
Proof. unfold deletedIds. by rewrite list_elem_of_omap. Qed.

(** X10. A delete event removes what the component holds about each
    feature with a non-empty id: its entry of [polygonData], its marker,
    its source and its two layers; features without an id are skipped.
    The event is idempotent: the same event again changes nothing. It does
    not touch the sampling calls in progress nor the requests sent. What
    is held about a polygon that is not deleted stays, unless its id is
    the id of a deleted polygon followed by ["-outline"]. *)
Theorem draw_delete_removes (props : MapViewProps) (s : State) (features : list Feature) :
  let s' := step props s (DrawDelete features) in
  (forall i, i ∈ deletedIds features ->
     derivedState s' i = noDerivedState /\
     layers (mapRef s') !! outlineLayerId i = None) /\
  step props s' (DrawDelete features) = s' /\
  (pending s' = pending s /\ nextPass s' = nextPass s /\ fetched s' = fetched s) /\
  (forall q, q ∉ deletedIds features ->
     (forall i, i ∈ deletedIds features -> q <> i +:+ "-outline") ->
     derivedState s' q = derivedState s q).
Proof.
  intros s'. subst s'. cbn [step]. rewrite !onDrawDelete_fields.
  cbn [polygonData polygonTempMarkersRef mapRef sources layers pending nextPass fetched
       polygonAvgTemp polygonCentroid].
  split; [|split; [|split]].
  - intros i Hi. unfold derivedState, noDerivedState.
    cbn [polygonData polygonTempMarkersRef mapRef sources layers].
    rewrite !lookup_fold_delete.
    rewrite !(decide_True _ _ Hi).
    rewrite decide_True by (by apply list_elem_of_fmap_2).
    rewrite decide_True
      by (apply list_elem_of_bind; exists i; split; [apply elem_of_cons; by left|done]).
    split; [done|].
    rewrite decide_True; [done|].
    apply list_elem_of_bind. exists i. split; [|done].
    apply elem_of_cons. right. apply elem_of_cons. by left.
  - by rewrite !fold_delete_idemp.
  - done.
  - intros q Hq Hout. unfold derivedState.
    cbn [polygonData polygonTempMarkersRef mapRef sources layers].
    rewrite !lookup_fold_delete.
    rewrite !(decide_False _ _ Hq).
    rewrite decide_False.
    2:{ intros (i & Heq & Hi)%list_elem_of_fmap. apply sourceId_inj in Heq. by subst. }
    rewrite decide_False; [done|].
    intros (i & Hk & Hi)%list_elem_of_bind.
    apply elem_of_cons in Hk as [Hk|Hk].
    + apply fillLayerId_inj in Hk. by subst.
    + apply list_elem_of_singleton in Hk.
      apply (Hout i Hi). by apply fillLayerId_inj.
Qed.

(** *** Sampling goes on after a delete *)

(** X11. A delete event does not stop the sampling call of a deleted
    polygon: when the call gets its last answer after the event, with at
    least one temperature, the polygon is back with an entry, a marker, a
    source and a fill layer. *)
Theorem delete_does_not_cancel (props : MapViewProps) (s : State) (k : nat) (p : Pass)
    (outcome : FetchOutcome) (features : list Feature) :
  pending s !! k = Some p -> remaining p = [] ->
  let temps := push (temperatures p) (getTemperatureForCoordinate outcome) in
  temps <> [] ->
  let s' := step props (step props s (DrawDelete features)) (FetchSettled k outcome) in
  derivedState s' (polygonId p) = derivedFrom (polygonId p) (coordinates p) temps.
Proof.
  intros Hk Hr temps Hne s'. subst s'.
  assert (Hk' : pending (step props s (DrawDelete features)) !! k = Some p).
  { cbn [step]. by rewrite onDrawDelete_fields. }
  rewrite (resume_last props _ k p outcome Hk' Hr).
  exact (afterLoop_derivedState
           {| polygonId := polygonId p; coordinates := coordinates p;
              remaining := []; temperatures := temps |} _ Hne).
Qed.

Lemma delete_does_not_cancel_witness :
  let s := run noProps initialState
             [DrawCreate [polygonFeature "P" ring1];
              FetchSettled 0 (answer 5%float); FetchSettled 0 (answer 5%float)] in
  let s' := step noProps (step noProps s (DrawDelete [polygonFeature "P" ring1]))
              (FetchSettled 0 (answer 5%float)) in
  derivedState s' "P" = derivedFrom "P" ring1 [5; 5; 5]%float.
Proof.
  refine (delete_does_not_cancel noProps _ 0
            {| polygonId := "P"; coordinates := ring1; remaining := [];
               temperatures := [5; 5]%float |} (answer 5%float)
            [polygonFeature "P" ring1] _ _ _).
  - by vm_compute.
  - reflexivity.
  - discriminate.
Defined.

(** *** Markers, entries and sources go together *)

Lemma consistent_fields (s s' : State) :
  polygonData s' = polygonData s ->
  polygonTempMarkersRef s' = polygonTempMarkersRef s ->
  mapRef s' = mapRef s ->
  consistent s -> consistent s'.
Proof. unfold consistent. by intros -> -> ->. Qed.

Lemma afterLoop_consistent (p : Pass) (s : State) :
  consistent s -> consistent (afterLoop p s).
Proof.
  intros (Hm & Hs & Hc). unfold afterLoop.
  destruct (temperatures p) as [|t ts] eqn:Ht.
  - by apply (consistent_fields s).
  - set (i0 := polygonId p). unfold consistent. cbn.
    split; [|split].
    + intros i. destruct (decide (i = i0)) as [->|Hne].
      * by rewrite !lookup_insert_eq.
      * rewrite !lookup_insert_ne by done. rewrite lookup_delete_ne by done. apply Hm.
    + intros i. destruct (decide (i = i0)) as [->|Hne].
      * rewrite !lookup_insert_eq. split; by eexists.
      * rewrite !lookup_insert_ne by (try done; intros ?%sourceId_inj; done).
        rewrite lookup_delete_ne by (intros ?%sourceId_inj; done). apply Hs.
    + intros i d ring. destruct (decide (i = i0)) as [->|Hne].
      * rewrite !lookup_insert_eq. by intros [= <-] [= <-].
      * rewrite !lookup_insert_ne by (try done; intros ?%sourceId_inj; done).
        rewrite lookup_delete_ne by (intros ?%sourceId_inj; done). apply Hc.
Qed.

Lemma loopHead_consistent (k : nat) (p : Pass) (s : State) :
  consistent s -> consistent (loopHead k p s).
Proof.
  intros Hs. unfold loopHead. destruct (remaining p) as [|[lng lat] rest].
  - apply afterLoop_consistent. by apply (consistent_fields s).
  - by apply (consistent_fields s).
Qed.

Lemma handlePolygonDraw_consistent (coordinates : list Coord) (i : string) (s : State) :
  consistent s -> consistent (handlePolygonDraw coordinates i s).
Proof.
  intros Hs. unfold handlePolygonDraw. apply loopHead_consistent.
  by apply (consistent_fields s).
Qed.

Lemma onDrawDelete_consistent (features : list Feature) (s : State) :
  consistent s -> consistent (onDrawDelete features s).
Proof.
  intros (Hm & Hs & Hc). rewrite onDrawDelete_fields. unfold consistent. cbn.
  split; [|split].
  - intros i. rewrite !lookup_fold_delete. by destruct (decide (i ∈ _)).
  - intros i. rewrite !lookup_fold_delete.
    destruct (decide (i ∈ deletedIds features)) as [Hi|Hi].
    + rewrite decide_True by (by apply list_elem_of_fmap_2).
      split; by intros [? ?].
    + rewrite decide_False; [apply Hs|].
      intros (j & Heq & Hj)%list_elem_of_fmap. apply sourceId_inj in Heq. by subst.
  - intros i d ring. rewrite !lookup_fold_delete.
    destruct (decide (i ∈ deletedIds features)) as [Hi|Hi]; [done|].
    destruct (decide (sourceId i ∈ _)); [done|]. apply Hc.
Qed.

Lemma step_consistent (props : MapViewProps) (s : State) (ev : Event) :
  consistent s -> consistent (step props s ev).
Proof.
  intros Hs. destruct ev as [features|features|features|k outcome]; cbn [step].
  - unfold onDrawCreate. destruct features as [|f ?]; [done|].
    destruct (geometry f) as [[|ring ?]|]; try done.
    destruct (truthy (id f)); [|done]. by apply handlePolygonDraw_consistent.
  - unfold onDrawUpdate. revert s Hs.
    induction features as [|f features IH]; intros s Hs; [done|].
    cbn [fold_left]. apply IH.
    destruct (geometry f) as [[|ring ?]|]; try done.
    destruct (truthy (id f)); [|done]. by apply handlePolygonDraw_consistent.
  - by apply onDrawDelete_consistent.
  - unfold resume. destruct (pending s !! k); [|done]. by apply loopHead_consistent.
Qed.

(** X12. After every sequence of draw events and answers, from the first
    render on: a polygon has a marker exactly when it has an entry in
    [polygonData], and the marker is at the centroid of the entry and
    shows its average, in the colour of that average; a polygon has a
    source exactly when it has an entry, and the centroid of the entry is
    the centroid of the ring of the source. *)
Theorem markers_entries_sources (props : MapViewProps) (evs : list Event) :
  let s := run props initialState evs in
  (forall i, polygonTempMarkersRef s !! i = markerOf <$> polygonData s !! i) /\
  (forall i, is_Some (sources (mapRef s) !! sourceId i) <-> is_Some (polygonData s !! i)) /\
  (forall i d ring,
     polygonData s !! i = Some d -> sources (mapRef s) !! sourceId i = Some ring ->
     centroid d = calculateCentroid ring).
Proof.
  cbv zeta.
  assert (H0 : consistent initialState).
  { unfold consistent, initialState. cbn. split; [done|]. split; [|done].
    intros i. rewrite !lookup_empty. split; by intros [? ?]. }
  revert H0. generalize initialState.
  induction evs as [|ev evs IH]; intros s Hs; [exact Hs|].
  cbn [run fold_left]. apply IH. by apply step_consistent.
Qed.

(** *** One polygon at a time *)

(** X13. An answer to the sampling call of one polygon changes nothing of
    what is held about another polygon (its entry, marker, source and fill
    layer), unless the id of the other polygon is the id of the first
    followed by ["-outline"]. *)
Theorem answer_leaves_other_polygons (props : MapViewProps) (s : State) (k : nat)
    (outcome : FetchOutcome) (q : string) :
  (forall p, pending s !! k = Some p ->
     q <> polygonId p /\ q <> polygonId p +:+ "-outline") ->
  derivedState (step props s (FetchSettled k outcome)) q = derivedState s q.
Proof.
  intros Hq. cbn [step]. unfold resume.
  destruct (pending s !! k) as [p|] eqn:Hk; [|done].
  destruct (Hq p eq_refl) as [Hne Hout].
  unfold loopHead. cbn [remaining polygonId coordinates temperatures].
  destruct (remaining p) as [|[lng lat] rest]; [|done].
  unfold afterLoop. cbn [temperatures polygonId coordinates].
  destruct (push (temperatures p) (getTemperatureForCoordinate outcome)); [done|].
  unfold derivedState. cbn.
  rewrite !lookup_insert_ne by (try done; intros ?%sourceId_inj; done).
  rewrite lookup_insert_ne
    by (intros H; apply Hout; symmetry; by apply fillLayerId_inj).
  rewrite lookup_insert_ne by (intros ?%fillLayerId_inj; done).
  rewrite !lookup_delete_ne by (try done; intros ?%sourceId_inj; done).
  rewrite lookup_delete_ne
    by (intros H; apply Hout; symmetry; by apply fillLayerId_inj).
  rewrite lookup_delete_ne by (intros ?%fillLayerId_inj; done).
  done.
Qed.

Lemma answer_leaves_other_polygons_witness :
  let s := run noProps initialState
             (updateWhileSampling ++ newPassEnds
              ++ [FetchSettled 0 (answer 5%float); FetchSettled 0 (answer 5%float)]) in
  derivedState (step noProps s (FetchSettled 0 (answer 5%float))) "Q" = derivedState s "Q".
Proof.
  apply answer_leaves_other_polygons.
  intros p Hp. vm_compute in Hp. injection Hp as <-. by split.
Defined.

(** *** Rendering a polygon again *)

(** X14. [renderPolygonToMap] replaces what the map has for the polygon:
    rendering it again leaves one source and two layers, those of the
    last call, as if the first call had not been made. Sources and layers
    under other ids are not touched. The id of the outline layer of a
    polygon is also the id of the fill layer of the polygon whose id has
    ["-outline"] added. *)
Theorem renderPolygonToMap_replaces (i : string) (ring1 ring2 : list Coord)
    (color1 color2 : string) (m : MapState) :
  renderPolygonToMap i ring2 color2 (renderPolygonToMap i ring1 color1 m)
  = renderPolygonToMap i ring2 color2 m /\
  (forall k, k <> sourceId i ->
     sources (renderPolygonToMap i ring1 color1 m) !! k = sources m !! k) /\
  (forall k, k <> fillLayerId i -> k <> outlineLayerId i ->
     layers (renderPolygonToMap i ring1 color1 m) !! k = layers m !! k) /\
  sources (renderPolygonToMap i ring1 color1 m) !! sourceId i = Some ring1 /\
  (paintColor <$> layers (renderPolygonToMap i ring1 color1 m) !! fillLayerId i)
    = Some color1 /\
  outlineLayerId i = fillLayerId (i +:+ "-outline").
Proof.
  pose proof (fill_outline_ne i) as Hfo.
  split; [|split; [|split; [|split; [|split]]]].
  - unfold renderPolygonToMap. cbn [sources layers]. f_equal.
    + by rewrite delete_insert_eq, delete_delete_eq.
    + apply map_eq. intros k.
      destruct (decide (k = outlineLayerId i)) as [->|Ho];
        [by rewrite !lookup_insert_eq|].
      rewrite !(lookup_insert_ne _ (outlineLayerId i)) by done.
      destruct (decide (k = fillLayerId i)) as [->|Hf];
        [by rewrite !lookup_insert_eq|].
      rewrite !(lookup_insert_ne _ (fillLayerId i)) by done.
      repeat first [rewrite lookup_delete_ne by done|rewrite lookup_insert_ne by done].
      done.
  - intros k Hk. unfold renderPolygonToMap. cbn [sources].
    by rewrite lookup_insert_ne, lookup_delete_ne.
  - intros k Hf Ho. unfold renderPolygonToMap. cbn [layers].
    by rewrite !lookup_insert_ne, !lookup_delete_ne.
  - unfold renderPolygonToMap. cbn [sources]. apply lookup_insert_eq.
  - unfold renderPolygonToMap. cbn [layers].
    rewrite lookup_insert_ne by (by apply not_eq_sym).
    by rewrite lookup_insert_eq.
  - reflexivity.
Qed.

(** *** The two centroids *)

Lemma fold_left_pair_proj (l : list Coord) (x y : number) :
  fold_left (fun '(x, y) (c : Coord) => (x + c.1, y + c.2)%float) l (x, y)
  = (fold_left PrimFloat.add (l.*1) x, fold_left PrimFloat.add (l.*2) y).
Proof.
  revert x y. induction l as [|[lng lat] l IH]; intros x y; [done|].
  cbn. apply IH.
Qed.

(** X15. For a ring that is not empty, [calculateCentroid] gives what
    [getPolygonCentroid] gives for the ring without its last position.
    [getPolygonCentroid] of no position, and [calculateCentroid] of a
    single position, divide zero by zero: both coordinates are NaN. *)
Theorem centroids_agree (coords : list Coord) :
  (coords <> [] ->
     calculateCentroid coords
     = (lon (getPolygonCentroid (slice_0_m1 coords)),
        lat (getPolygonCentroid (slice_0_m1 coords)))) /\
  (PrimFloat.is_nan (lon (getPolygonCentroid [])) = true /\
   PrimFloat.is_nan (lat (getPolygonCentroid [])) = true) /\
  (forall c, PrimFloat.is_nan (calculateCentroid [c]).1 = true /\
             PrimFloat.is_nan (calculateCentroid [c]).2 = true).
Proof.
  split; [|split].
  - intros Hne. unfold calculateCentroid, getPolygonCentroid.
    rewrite fold_left_pair, fold_left_pair_proj. cbn [lon lat].
    replace (Z.of_nat (length (slice_0_m1 coords))) with (Z.of_nat (length coords) - 1)%Z;
      [done|].
    unfold slice_0_m1. rewrite length_take.
    destruct coords; [done|]. cbn [length]. lia.
  - by vm_compute.
  - intros c. by vm_compute.
Qed.

End MapViewMoreFacts.

(** ** Properties of the store *)

Module StoreFacts.

Import MapView Store.

Lemma spread_noProperties (u : PartialPolygonConfig) : spread noProperties u = u.
Proof. destruct u as [[] [] [] [] []]; reflexivity. Qed.

Lemma spread_nothing (e : PartialPolygonConfig) : spread e noProperties = e.
Proof. by destruct e. Qed.

Lemma spread_assoc (e u1 u2 : PartialPolygonConfig) :
  spread (spread e u1) u2 = spread e (spread u1 u2).
Proof.
  unfold spread, property. cbn.
  by destruct (id' u2), (coordinates' u2), (dataSource' u2), (rule' u2), (color' u2).
Qed.

(** X16. A polygon that is added is found under its id with all its
    properties, and a second polygon with the same id replaces it.
    Deleting it gives the store back as it was when the id was new.
    Deleting an id that is not there changes nothing, and deleting twice
    is deleting once. Deleting a polygon leaves its weather data in the
    store. *)
Theorem polygons_add_delete (config : PolygonConfig) (state : DashboardState) :
  polygons (addPolygon config state) !! id config = Some (whole config) /\
  (forall j, j <> id config ->
     polygons (addPolygon config state) !! j = polygons state !! j) /\
  (forall config', id config' = id config ->
     addPolygon config' (addPolygon config state) = addPolygon config' state) /\
  (polygons state !! id config = None ->
     deletePolygon (id config) (addPolygon config state) = state) /\
  (forall i,
     deletePolygon i (deletePolygon i state) = deletePolygon i state /\
     (polygons state !! i = None -> deletePolygon i state = state) /\
     weatherData (deletePolygon i state) = weatherData state).
Proof.
  split; [apply lookup_insert_eq|]. split; [|split; [|split]].
  - intros j Hj. cbn. by apply lookup_insert_ne.
  - intros config' Heq. unfold addPolygon. cbn. rewrite Heq.
    by rewrite insert_insert_eq.
  - intros Hnone. unfold deletePolygon, addPolygon. cbn.
    rewrite delete_insert_eq, delete_id by done. by destruct state.
  - intros i. split; [|split; [|done]].
    + unfold deletePolygon. cbn. by rewrite delete_delete_eq.
    + intros Hnone. unfold deletePolygon. rewrite delete_id by done. by destruct state.
Qed.

(** X17. [updatePolygon] merges the updates into the entry: a property of
    the updates replaces the one of the entry and the other properties of
    the entry stay. For an id that is not in the store it makes an entry
    with the properties of the updates only. The entry stays under the id
    it is updated under, whatever [id] the updates carry, and other
    entries are not touched. Two updates in a row are one update with the
    second merged into the first; an update without properties changes
    nothing of an entry. *)
Theorem updatePolygon_merges (i : string) (updates : PartialPolygonConfig)
    (state : DashboardState) :
  (forall entry, polygons state !! i = Some entry ->
     polygons (updatePolygon i updates state) !! i = Some (spread entry updates) /\
     color' (spread entry updates) = property (color' entry) (color' updates) /\
     updatePolygon i noProperties state = state) /\
  (polygons state !! i = None ->
     polygons (updatePolygon i updates state) !! i = Some updates) /\
  (forall j, j <> i ->
     polygons (updatePolygon i updates state) !! j = polygons state !! j) /\
  (forall updates',
     updatePolygon i updates' (updatePolygon i updates state)
     = updatePolygon i (spread updates updates') state) /\
  weatherData (updatePolygon i updates state) = weatherData state.
Proof.
  split; [|split; [|split; [|split]]].
  - intros entry He. split; [|split; [done|]].
    + cbn. rewrite He. apply lookup_insert_eq.
    + unfold updatePolygon. rewrite He. cbn. rewrite spread_nothing.
      rewrite insert_id by done. by destruct state.
  - intros Hnone. cbn. rewrite Hnone. cbn. rewrite spread_noProperties.
    apply lookup_insert_eq.
  - intros j Hj. cbn. by apply lookup_insert_ne.
  - intros updates'. unfold updatePolygon. cbn.
    rewrite lookup_insert_eq. cbn. by rewrite insert_insert_eq, spread_assoc.
  - done.
Qed.

(** X18. [setWeatherData] merges the data into the cache of the polygon:
    for a timestamp of the data the new value is kept, for another
    timestamp the value that was there. The caches of other polygons and
    the polygons themselves are not touched. Setting data twice is setting
    their merge once, and setting the same data again changes nothing. *)
Theorem setWeatherData_merges (polygonId : string) (data : gmap string number)
    (state : DashboardState) :
  let cache (st : DashboardState) := default ∅ (weatherData st !! polygonId) in
  (forall t, cache (setWeatherData polygonId data state) !! t
             = match data !! t with
               | Some x => Some x
               | None => cache state !! t
               end) /\
  (forall q, q <> polygonId ->
     weatherData (setWeatherData polygonId data state) !! q = weatherData state !! q) /\
  (forall data',
     setWeatherData polygonId data' (setWeatherData polygonId data state)
     = setWeatherData polygonId (data' ∪ data) state) /\
  setWeatherData polygonId data (setWeatherData polygonId data state)
  = setWeatherData polygonId data state /\
  polygons (setWeatherData polygonId data state) = polygons state.
Proof.
  intros cache. subst cache. cbv beta.
  assert (Hcompose : forall data',
     setWeatherData polygonId data' (setWeatherData polygonId data state)
     = setWeatherData polygonId (data' ∪ data) state).
  { intros data'. unfold setWeatherData. cbn.
    rewrite lookup_insert_eq. cbn.
    by rewrite insert_insert_eq, (assoc_L (∪)). }
  split; [|split; [|split; [|split]]].
  - intros t. cbn. rewrite lookup_insert_eq. cbn.
    rewrite lookup_union. by destruct (data !! t), (default ∅ _ !! t).
  - intros q Hq. cbn. by apply lookup_insert_ne.
  - exact Hcompose.
  - rewrite Hcompose. by rewrite (idemp_L (∪)).
  - done.
Qed.

End StoreFacts.

(** ** Properties of the sidebar *)

Module SidebarFacts.

Import MapView Sidebar SidebarSpec.
#[local] Set Warnings "-clear-no-such-hyp".

Lemma NoDup_fmap_eq {A B} (f : A -> B) (l : list A) (x y : A) :
  NoDup (f <$> l) -> x ∈ l -> y ∈ l -> f x = f y -> x = y.
Proof.
  induction l as [|a l IH]; cbn; intros Hnd Hx Hy Hf; [by apply elem_of_nil in Hx|].
  apply NoDup_cons in Hnd as [Hna Hnd].
  apply elem_of_cons in Hx as [->|Hx]; apply elem_of_cons in Hy as [->|Hy].
  - done.
  - exfalso. apply Hna. rewrite Hf. by apply list_elem_of_fmap_2.
  - exfalso. apply Hna. rewrite <- Hf. by apply list_elem_of_fmap_2.
  - by apply IH.
Qed.

Lemma findSource_Some (sourceId : string) (s : State) (source : DataSource) :
  findSource sourceId s = Some source ->
  source ∈ dataSources s /\ dataSourceId source = sourceId.
Proof.
  unfold findSource. intros H. apply find_some in H as [Hin Hid].
  split; [by apply list_elem_of_In|]. by apply bool_decide_eq_true in Hid.
Qed.

Lemma findSource_None (sourceId : string) (s : State) :
  findSource sourceId s = None ->
  forall ds, ds ∈ dataSources s -> dataSourceId ds <> sourceId.
Proof.
  unfold findSource. intros H ds Hin Hid.
  apply list_elem_of_In in Hin.
  pose proof (find_none _ _ H ds Hin) as Hf. cbn in Hf.
  by rewrite bool_decide_eq_false in Hf.
Qed.

(** With distinct ids, an update of the rules computed from the source
    that [find] returns is an update of each source from its own rules. *)
Lemma updateDataSource_found (sourceId : string) (s : State) (source : DataSource)
    (f : list SidebarRule -> list SidebarRule) :
  distinctSources s -> findSource sourceId s = Some source ->
  dataSources (updateDataSource sourceId (thresholdsUpdate (f (thresholds source))) s)
  = mapThresholds sourceId f (dataSources s).
Proof.
  intros Hnd Hfind. apply findSource_Some in Hfind as [Hin Hid].
  unfold updateDataSource, mapThresholds. cbn [dataSources].
  apply list_fmap_ext. intros n ds Hds.
  destruct (decide (dataSourceId ds = sourceId)) as [Heq|]; [|done].
  assert (ds = source) as ->; [|done].
  apply (NoDup_fmap_eq dataSourceId (dataSources s)); try done.
  - by apply list_elem_of_lookup_2 in Hds.
  - by rewrite Heq, Hid.
Qed.

Lemma mapThresholds_none (sourceId : string) (f : list SidebarRule -> list SidebarRule)
    (dss : list DataSource) :
  (forall ds, ds ∈ dss -> dataSourceId ds <> sourceId) ->
  mapThresholds sourceId f dss = dss.
Proof.
  intros H. unfold mapThresholds. rewrite <- (list_fmap_id dss) at 2.
  apply list_fmap_ext. intros n ds Hds.
  rewrite decide_False; [done|]. apply H. by apply list_elem_of_lookup_2 in Hds.
Qed.

(** X19. With distinct source ids, [updateThreshold] edits the rules of
    the source in place: the source of that id keeps its other properties
    and gets its own rules with the rules of that rule id updated; other
    sources are not touched. An edit keeps the number and the order of
    the rules, keeps the rules of other ids as they are, and keeps the ids
    when the updates carry no id. *)
Theorem updateThreshold_in_place (sourceId thresholdId : string) (updates : RuleUpdates)
    (s : State) :
  distinctSources s ->
  dataSources (updateThreshold sourceId thresholdId updates s)
  = mapThresholds sourceId (editedRules thresholdId updates) (dataSources s) /\
  expandedSources (updateThreshold sourceId thresholdId updates s) = expandedSources s /\
  (forall ts : list SidebarRule,
     length (editedRules thresholdId updates ts) = length ts /\
     (forall n t, ts !! n = Some t -> ruleId t <> thresholdId ->
        editedRules thresholdId updates ts !! n = Some t) /\
     (newRuleId updates = None ->
        ruleId <$> editedRules thresholdId updates ts = ruleId <$> ts)).
Proof.
  intros Hnd. split; [|split].
  - unfold updateThreshold. destruct (findSource sourceId s) as [source|] eqn:Hfind.
    + by apply (updateDataSource_found sourceId s source (editedRules thresholdId updates)).
    + by rewrite mapThresholds_none by (by apply findSource_None).
  - unfold updateThreshold. by destruct (findSource sourceId s).
  - intros ts. unfold editedRules. split; [apply length_fmap|]. split.
    + intros n t Ht Hne. rewrite list_lookup_fmap, Ht. cbn. by rewrite decide_False.
    + intros Hid. rewrite <- list_fmap_compose. apply list_fmap_ext.
      intros n t _. cbn. destruct (decide (ruleId t = thresholdId)); [|done].
      unfold updateRule. cbn. by rewrite Hid.
Qed.

Lemma updateThreshold_in_place_witness :
  dataSources (updateThreshold "default-open-meteo" "2"
                 {| newRuleId := None; newOperator := None; newValue := Some 15%float;
                    newColor := None; newLabel := None |} initialState)
  = mapThresholds "default-open-meteo"
      (editedRules "2"
         {| newRuleId := None; newOperator := None; newValue := Some 15%float;
            newColor := None; newLabel := None |})
      (dataSources initialState).
Proof.
  refine (proj1 (updateThreshold_in_place "default-open-meteo" "2" _ initialState _)).
  unfold distinctSources. cbn. apply NoDup_singleton.
Defined.

Lemma filter_all {A} (P : A -> Prop) `{!forall x, Decision (P x)} (l : list A) :
  (forall x, x ∈ l -> P x) -> filter P l = l.
Proof.
  induction l as [|a l IH]; intros Hall; [done|].
  rewrite filter_cons_True by (apply Hall, elem_of_cons; by left).
  f_equal. apply IH. intros x Hx. apply Hall, elem_of_cons. by right.
Qed.

Lemma length_otherRules (thresholdId : string) (ts : list SidebarRule) :
  NoDup (ruleId <$> ts) -> length ts <= S (length (otherRules thresholdId ts)).
Proof.
  unfold otherRules. induction ts as [|t ts IH]; intros Hnd; [cbn; lia|].
  rewrite fmap_cons in Hnd. apply NoDup_cons in Hnd as [Hnin Hnd].
  rewrite filter_cons. cbn [length].
  destruct (decide (ruleId t <> thresholdId)) as [Hne|Heq].
  - cbn [length]. specialize (IH Hnd). lia.
  - apply dec_stable in Heq.
    assert (Hall : filter (fun t' => ruleId t' <> thresholdId) ts = ts); [|rewrite Hall; lia].
    apply filter_all. intros t' Ht' Heq'.
    apply Hnin. rewrite Heq, <- Heq'. by apply list_elem_of_fmap_2.
Qed.

(** X20. With distinct source ids and distinct rule ids in each source,
    [removeThreshold] never leaves a source without rules: the sources
    keep their places, a source that has rules keeps at least one, and a
    source loses at most one rule. The last rule of a source is not
    removed. *)
Theorem removeThreshold_keeps_a_rule (sourceId thresholdId : string) (s : State) :
  distinctSources s ->
  (forall ds, ds ∈ dataSources s -> NoDup (ruleId <$> thresholds ds)) ->
  let s' := removeThreshold sourceId thresholdId s in
  length (dataSources s') = length (dataSources s) /\
  (forall n ds, dataSources s !! n = Some ds ->
     exists ds', dataSources s' !! n = Some ds' /\
       dataSourceId ds' = dataSourceId ds /\
       (dataSourceId ds <> sourceId -> ds' = ds) /\
       (length (thresholds ds) <= 1 -> ds' = ds) /\
       (thresholds ds <> [] -> thresholds ds' <> []) /\
       length (thresholds ds) <= S (length (thresholds ds')) /\
       (thresholds ds' = thresholds ds \/
        thresholds ds' = otherRules thresholdId (thresholds ds))).
Proof.
  intros Hnd Hrules s'. subst s'. unfold removeThreshold.
  destruct (findSource sourceId s) as [source|] eqn:Hfind.
  2:{ split; [done|]. intros n ds Hds. exists ds. repeat split; auto; lia. }
  destruct (Nat.leb_spec (length (thresholds source)) 1) as [Hle|Hgt].
  { split; [done|]. intros n ds Hds. exists ds. repeat split; auto; lia. }
  fold (otherRules thresholdId (thresholds source)).
  rewrite (updateDataSource_found sourceId s source (otherRules thresholdId)) by done.
  unfold mapThresholds. split; [apply length_fmap|].
  intros n ds Hds. rewrite list_lookup_fmap, Hds. cbn.
  destruct (decide (dataSourceId ds = sourceId)) as [Heq|Hne].
  2:{ exists ds. repeat split; auto; lia. }
  assert (ds = source) as ->.
  { apply findSource_Some in Hfind as [Hin Hid].
    apply (NoDup_fmap_eq dataSourceId (dataSources s)); try done.
    - by apply list_elem_of_lookup_2 in Hds.
    - by rewrite Heq, Hid. }
  assert (Hin : source ∈ dataSources s) by (by apply list_elem_of_lookup_2 in Hds).
  pose proof (length_otherRules thresholdId (thresholds source) (Hrules source Hin)) as Hlen.
  eexists. split; [reflexivity|]. cbn.
  split; [done|]. split; [done|]. split; [lia|]. split.
  - intros _ Hnil. rewrite Hnil in Hlen. cbn in Hlen. lia.
  - split; [done|]. by right.
Qed.

Lemma removeThreshold_keeps_a_rule_witness :
  let s' := removeThreshold "default-open-meteo" "2" initialState in
  length (dataSources s') = length (dataSources initialState) /\
  (thresholds <$> dataSources s' !! 0%nat)
  = Some (otherRules "2" (default [] (thresholds <$> dataSources initialState !! 0%nat))).
Proof.
  assert (Hnd : distinctSources initialState).
  { unfold distinctSources. cbn. apply NoDup_singleton. }
  assert (Hrules : forall ds, ds ∈ dataSources initialState ->
            NoDup (ruleId <$> thresholds ds)).
  { intros ds Hds. cbn in Hds. apply list_elem_of_singleton in Hds as ->. cbn.
    by apply (bool_decide_unpack _). }
  destruct (removeThreshold_keeps_a_rule "default-open-meteo" "2" initialState Hnd Hrules)
    as [Hlen _].
  split; [exact Hlen|]. by vm_compute.
Defined.

(** X21. With distinct source ids, [addThreshold] puts the new rule after
    the rules of the source of that id, so that the rules that were there
    keep their places; other sources are not touched, and for an id that
    no source has, nothing changes. The new rule is ["<" 0] in grey, with
    the clock reading as its id. *)
Theorem addThreshold_appends (sourceId : string) (clock : Z) (s : State) :
  distinctSources s ->
  dataSources (addThreshold sourceId clock s)
  = mapThresholds sourceId (fun ts => ts ++ [newThreshold clock]) (dataSources s) /\
  ((forall ds, ds ∈ dataSources s -> dataSourceId ds <> sourceId) ->
     addThreshold sourceId clock s = s).
Proof.
  intros Hnd. unfold addThreshold. fold (newThreshold clock).
  destruct (findSource sourceId s) as [source|] eqn:Hfind; cbn [fmap option_fmap option_map default].
  - split.
    + by apply (updateDataSource_found sourceId s source (fun ts => ts ++ [newThreshold clock])).
    + intros Hnone. apply findSource_Some in Hfind as [Hin Hid]. by destruct (Hnone source Hin).
  - pose proof (findSource_None sourceId s Hfind) as Hnone.
    assert (Hsame : forall u, updateDataSource sourceId u s = s).
    { intros u. unfold updateDataSource. destruct s as [dss ex sh]. cbn in *. f_equal.
      rewrite <- (list_fmap_id dss) at 2. apply list_fmap_ext. intros n ds Hds.
      rewrite decide_False; [done|]. apply Hnone. by apply list_elem_of_lookup_2 in Hds. }
    split; [|by intros _].
    rewrite Hsame. by rewrite mapThresholds_none.
Qed.

Lemma addThreshold_appends_witness :
  (thresholds <$> dataSources (addThreshold "default-open-meteo" 1700000000000 initialState)
     !! 0%nat)
  = Some (default [] (thresholds <$> dataSources initialState !! 0%nat)
          ++ [newThreshold 1700000000000]).
Proof.
  assert (Hnd : distinctSources initialState).
  { unfold distinctSources. cbn. apply NoDup_singleton. }
  destruct (addThreshold_appends "default-open-meteo" 1700000000000 initialState Hnd)
    as [H _].
  rewrite H. reflexivity.
Defined.

(** X22. A data source that is added comes last, expanded, with two
    rules, and the list of templates is closed. Removing it again gives
    back the sources and the expanded set as they were, when its id was
    new. A key without a template adds nothing. Toggling the expansion of
    a source twice gives back the expanded set. *)
Theorem addDataSource_removeDataSource (sourceKey : string) (clock : Z) (s : State) :
  let newId := sourceKey +:+ "-" +:+ pretty clock in
  (forall template, AVAILABLE_DATA_SOURCES sourceKey = Some template ->
     let s1 := addDataSource sourceKey clock s in
     (exists newSource,
        dataSources s1 = dataSources s ++ [newSource] /\
        dataSourceId newSource = newId /\
        length (thresholds newSource) = 2%nat /\
        fields newSource = templateFields template) /\
     newId ∈ expandedSources s1 /\ showAddDataSource s1 = false /\
     ((forall ds, ds ∈ dataSources s -> dataSourceId ds <> newId) ->
        dataSources (removeDataSource newId s1) = dataSources s) /\
     (newId ∉ expandedSources s ->
        expandedSources (removeDataSource newId s1) = expandedSources s)) /\
  (AVAILABLE_DATA_SOURCES sourceKey = None -> addDataSource sourceKey clock s = s) /\
  (forall i, toggleSourceExpansion i (toggleSourceExpansion i s) = s).
Proof.
  intros newId. split; [|split].
  - intros template Ht s1. subst s1. unfold addDataSource. rewrite Ht.
    cbn [dataSources expandedSources showAddDataSource dataSourceId].
    fold newId.
    split; [eexists; repeat split|]. split; [set_solver|]. split; [done|]. split.
    + intros Hnew. unfold removeDataSource. cbn [dataSources].
      rewrite filter_app, filter_cons, filter_nil.
      rewrite decide_False by (intros H; by apply H).
      rewrite app_nil_r. apply filter_all. exact Hnew.
    + intros Hnew. unfold removeDataSource. cbn [expandedSources]. set_solver.
  - intros Hn. unfold addDataSource. by rewrite Hn.
  - intros i. unfold toggleSourceExpansion. destruct s as [dss ex sh]. cbn. f_equal.
    destruct (decide (i ∈ ex)) as [Hin|Hnin].
    + rewrite decide_False by set_solver.
      apply set_eq. intros x. destruct (decide (x = i)); set_solver.
    + rewrite decide_True by set_solver. set_solver.
Qed.

End SidebarFacts.
